(** * Smart Grocery Shopping Assistant: the backend, embedded and verified

    A shallow embedding of [backend/models.py], [backend/assistant_logic.py]
    and [backend/chatbot_logic.py].

    - Python [str] is [string]; the character tables ([str.lower],
      [str.isspace], the classes [\s], [\w], [\d] of [re]) are those of
      Python on the code points below 128, every other character being
      caseless and in no class.
    - A [dict] is an association list in insertion order; assignment to a
      present key replaces the value in place, as Python does.
    - [datetime.date] is a record of year, month and day; [date.today()] is
      an explicit argument [today].
    - A file is either missing, present without being a JSON document, or a
      JSON document; [json.load] and [json.dump] move between the file and
      the value.
    - A Python exception is the [Raise] case of [result]. *)

From Stdlib Require Import String Ascii List ZArith Bool Lia PeanoNat.
From Stdlib Require Import DecimalString.
Import ListNotations.

Open Scope string_scope.
Open Scope Z_scope.
Open Scope list_scope.

(* ------------------------------------------------------------------ *)
(** ** Python text primitives *)

Module PyStr.

Definition code (c : ascii) : nat := nat_of_ascii c.

Definition in_range (lo hi : nat) (c : ascii) : bool :=
  (Nat.leb lo (code c) && Nat.leb (code c) hi)%bool.

Definition isupper (c : ascii) : bool := in_range 65 90 c.
Definition islower (c : ascii) : bool := in_range 97 122 c.
Definition isdigit (c : ascii) : bool := in_range 48 57 c.

(** [str.isspace] below 128: TAB..CR, FS..US and the blank. *)
Definition isspace (c : ascii) : bool :=
  (in_range 9 13 c || in_range 28 32 c)%bool.

(** The class [\w]: letters, digits and the underscore. *)
Definition isword (c : ascii) : bool :=
  (isupper c || islower c || isdigit c || Nat.eqb (code c) 95)%bool.

Definition lower_char (c : ascii) : ascii :=
  if isupper c then ascii_of_nat (code c + 32) else c.

(** [s.lower()] *)
Fixpoint lower (s : string) : string :=
  match s with
  | EmptyString => EmptyString
  | String c s' => String (lower_char c) (lower s')
  end.

(** [sub in s] *)
Fixpoint contains (sub s : string) : bool :=
  (String.prefix sub s ||
   match s with
   | EmptyString => false
   | String _ s' => contains sub s'
   end)%bool.

Fixpoint lstrip (s : string) : string :=
  match s with
  | EmptyString => EmptyString
  | String c s' => if isspace c then lstrip s' else s
  end.

Fixpoint rstrip (s : string) : string :=
  match s with
  | EmptyString => EmptyString
  | String c s' =>
      match rstrip s' with
      | EmptyString => if isspace c then EmptyString else String c EmptyString
      | r => String c r
      end
  end.

(** [s.strip()] *)
Definition strip (s : string) : string := rstrip (lstrip s).

(** [str(n)] for an [int] *)
Definition of_int (n : Z) : string := NilZero.string_of_int (Z.to_int n).

(** ["sep".join(l)] *)
Fixpoint join (sep : string) (l : list string) : string :=
  match l with
  | [] => ""
  | [x] => x
  | x :: rest => x ++ sep ++ join sep rest
  end.

(** [str(x)] for an [Optional[str]], as an f-string prints it. *)
Definition of_opt (o : option string) : string :=
  match o with Some s => s | None => "None" end.

(** Truthiness of an [Optional[str]]. *)
Definition truthy (o : option string) : bool :=
  match o with
  | Some (String _ _) => true
  | _ => false
  end.

End PyStr.

(* ------------------------------------------------------------------ *)
(** ** Exceptions *)

Inductive exn : Set :=
| FileNotFoundError | JSONDecodeError | AttributeError | TypeError
| KeyError | ValueError | ValidationError.

Inductive result (A : Type) : Type :=
| Ok (a : A)
| Raise (e : exn).
Arguments Ok {A} a.
Arguments Raise {A} e.

Definition bind {A B} (m : result A) (f : A -> result B) : result B :=
  match m with
  | Ok a => f a
  | Raise e => Raise e
  end.

Notation "x <- m ;; k" := (bind m (fun x => k))
  (at level 61, m at next level, right associativity).

(** A [for] loop whose body may raise: the first exception ends it. *)
Fixpoint foldM {A S} (body : S -> A -> result S) (l : list A) (s : S) : result S :=
  match l with
  | [] => Ok s
  | x :: rest => s' <- body s x ;; foldM body rest s'
  end.

(* ------------------------------------------------------------------ *)
(** ** JSON values and dictionaries *)

#[warnings="-register-all"]
Inductive json : Type :=
| JNull
| JBool (b : bool)
| JNum (lexeme : string)
| JStr (s : string)
| JArr (l : list json)
| JObj (d : list (string * json)).

Section Dict.
Context {V : Type}.

Definition dict := list (string * V).

(** [d.get(k)] *)
Fixpoint dict_get (k : string) (d : dict) : option V :=
  match d with
  | [] => None
  | (k', v) :: rest => if String.eqb k' k then Some v else dict_get k rest
  end.

(** [k in d] *)
Definition dict_mem (k : string) (d : dict) : bool :=
  match dict_get k d with Some _ => true | None => false end.

(** [d[k] = v]: in place when [k] is present, at the end otherwise. *)
Fixpoint dict_set (k : string) (v : V) (d : dict) : dict :=
  match d with
  | [] => [(k, v)]
  | (k', v') :: rest =>
      if String.eqb k' k then (k', v) :: rest
      else (k', v') :: dict_set k v rest
  end.

Definition keys (d : dict) : list string := map fst d.
End Dict.
Arguments dict V : clear implicits.

(** [v[k]] for a value read from JSON. *)
Definition subscript (v : json) (k : string) : result json :=
  match v with
  | JObj d => match dict_get k d with Some x => Ok x | None => Raise KeyError end
  | _ => Raise TypeError
  end.

(* ------------------------------------------------------------------ *)
(** ** Regular expressions, as [re] matches them

    A backtracking matcher in continuation-passing style for the operators
    the patterns of this program use.  [Plus] and [PlusLazy] repeat a
    one-character class, which is all these patterns repeat. *)

Module Re.

Inductive regex : Type :=
| Eps                                (* the empty pattern *)
| Chr (p : ascii -> bool)            (* one character of a class *)
| Seq (r1 r2 : regex)                (* r1 r2 *)
| Alt (r1 r2 : regex)                (* r1|r2 *)
| Opt (r : regex)                    (* r?  *)
| Plus (p : ascii -> bool)           (* p+  *)
| PlusLazy (p : ascii -> bool)       (* p+? *)
| Group (name : string) (r : regex)  (* (?P<name>r) *)
| Eos.                               (* $   *)

Definition groups := dict string.

Definition chr_is (c : ascii) : ascii -> bool := Ascii.eqb c.

(** A literal word. *)
Fixpoint Lit (s : string) : regex :=
  match s with
  | EmptyString => Eps
  | String c s' => Seq (Chr (chr_is c)) (Lit s')
  end.

Section Matcher.
Context {R : Type}.
Variable k : string -> option R.

(** [p+]: as many as possible first. *)
Fixpoint plus_greedy (p : ascii -> bool) (s : string) : option R :=
  match s with
  | EmptyString => None
  | String c s' =>
      if p c then
        match plus_greedy p s' with
        | Some x => Some x
        | None => k s'
        end
      else None
  end.

(** [p+?]: as few as possible first. *)
Fixpoint plus_lazy (p : ascii -> bool) (s : string) : option R :=
  match s with
  | EmptyString => None
  | String c s' =>
      if p c then
        match k s' with
        | Some x => Some x
        | None => plus_lazy p s'
        end
      else None
  end.
End Matcher.

(** The text between two positions: what [s] has before its suffix [s']. *)
Definition consumed (s s' : string) : string :=
  String.substring 0 (String.length s - String.length s') s.

Fixpoint rmatch {R} (r : regex) (s : string) (g : groups)
    (k : string -> groups -> option R) : option R :=
  match r with
  | Eps => k s g
  | Chr p =>
      match s with
      | String c s' => if p c then k s' g else None
      | EmptyString => None
      end
  | Seq r1 r2 => rmatch r1 s g (fun s' g' => rmatch r2 s' g' k)
  | Alt r1 r2 =>
      match rmatch r1 s g k with
      | Some x => Some x
      | None => rmatch r2 s g k
      end
  | Opt r1 =>
      match rmatch r1 s g k with
      | Some x => Some x
      | None => k s g
      end
  | Plus p => plus_greedy (fun s' => k s' g) p s
  | PlusLazy p => plus_lazy (fun s' => k s' g) p s
  | Group n r1 => rmatch r1 s g (fun s' g' => k s' (dict_set n (consumed s s') g'))
  | Eos =>
      match s with
      | EmptyString => k s g
      | String c EmptyString => if Ascii.eqb c "010"%char then k s g else None
      | _ => None
      end
  end.

(** [re.match(r, s)]: the groups and the text left after the match. *)
Definition rmatch_at (r : regex) (s : string) : option (groups * string) :=
  rmatch r s [] (fun s' g => Some (g, s')).

(** [re.search(r, s)]: the match at the leftmost position that has one. *)
Fixpoint search (r : regex) (s : string) : option groups :=
  match rmatch_at r s with
  | Some (g, _) => Some g
  | None =>
      match s with
      | EmptyString => None
      | String _ s' => search r s'
      end
  end.

(** [m.group(name)] *)
Definition group (name : string) (g : groups) : option string := dict_get name g.

Definition ws : regex := Plus PyStr.isspace.            (* \s+ *)
Definition word : regex := Plus PyStr.isword.           (* \w+ *)
Definition digits : regex := Plus PyStr.isdigit.        (* \d+ *)
Definition word_or_space (c : ascii) : bool :=          (* [\w\s] *)
  (PyStr.isword c || PyStr.isspace c)%bool.

(** Every match of [r] goes through a [Group n]. *)
Fixpoint always_sets (n : string) (r : regex) : bool :=
  match r with
  | Seq r1 r2 => always_sets n r1 || always_sets n r2
  | Alt r1 r2 => always_sets n r1 && always_sets n r2
  | Group m r1 => String.eqb m n || always_sets n r1
  | _ => false
  end.

(** [g'] has every group [g] has. *)
Definition extends (g g' : groups) : Prop :=
  forall n, dict_mem n g = true -> dict_mem n g' = true.

End Re.


(* ------------------------------------------------------------------ *)
(** ** [datetime.date] *)

Record date : Set := mkDate { year : Z; month : Z; day : Z }.

Definition is_leap (y : Z) : bool :=
  ((y mod 4 =? 0) && (negb (y mod 100 =? 0) || (y mod 400 =? 0)))%bool.

Definition days_in_month (y m : Z) : Z :=
  if m =? 2 then (if is_leap y then 29 else 28)
  else if (m =? 4) || (m =? 6) || (m =? 9) || (m =? 11) then 30
  else 31.

Definition days_before_year (y : Z) : Z :=
  let y1 := y - 1 in y1 * 365 + y1 / 4 - y1 / 100 + y1 / 400.

Definition days_before_month (y m : Z) : Z :=
  fold_left (fun acc k => acc + days_in_month y k)
            (map Z.of_nat (seq 1 (Z.to_nat (m - 1)))) 0.

(** [d.toordinal()] *)
Definition toordinal (d : date) : Z :=
  days_before_year (year d) + days_before_month (year d) (month d) + day d.

(** [(a - b).days] *)
Definition days_between (a b : date) : Z := toordinal a - toordinal b.

(** [a > b]: dates compare as the tuples (year, month, day). *)
Definition date_gt (a b : date) : bool :=
  (year a >? year b) ||
  ((year a =? year b) &&
   ((month a >? month b) || ((month a =? month b) && (day a >? day b)))).

Definition zero_pad (width : nat) (n : Z) : string :=
  let s := PyStr.of_int n in
  (String.concat "" (repeat "0" (width - String.length s)) ++ s)%string.

(** [d.isoformat()], also [str(d)] *)
Definition isoformat (d : date) : string :=
  (zero_pad 4 (year d) ++ "-" ++ zero_pad 2 (month d) ++ "-" ++ zero_pad 2 (day d))%string.

(** [int(s)] on a run of digits, blanks skipped. *)
Definition int_of (s : string) : Z :=
  fold_left (fun acc c => if PyStr.isdigit c then acc * 10 + (Z.of_nat (PyStr.code c) - 48) else acc)
            (list_ascii_of_string s) 0.

Definition between (lo hi : ascii) (c : ascii) : bool :=
  PyStr.in_range (PyStr.code lo) (PyStr.code hi) c.

(** The pattern [_strptime] compiles ['%Y-%m-%d'] to:
    [(?P<Y>\d\d\d\d)-(?P<m>1[0-2]|0[1-9]|[1-9])-(?P<d>3[0-1]|[1-2]\d|0[1-9]|[1-9]| [1-9])] *)
Definition ymd_pattern : Re.regex :=
  let d := Re.Chr PyStr.isdigit in
  let two a b := Re.Seq (Re.Chr a) (Re.Chr b) in
  Re.Seq (Re.Group "Y" (Re.Seq d (Re.Seq d (Re.Seq d d))))
  (Re.Seq (Re.Lit "-")
  (Re.Seq (Re.Group "m"
     (Re.Alt (two (Re.chr_is "1") (between "0" "2"))
     (Re.Alt (two (Re.chr_is "0") (between "1" "9"))
             (Re.Chr (between "1" "9")))))
  (Re.Seq (Re.Lit "-")
     (Re.Group "d"
     (Re.Alt (two (Re.chr_is "3") (between "0" "1"))
     (Re.Alt (two (between "1" "2") PyStr.isdigit)
     (Re.Alt (two (Re.chr_is "0") (between "1" "9"))
     (Re.Alt (Re.Chr (between "1" "9"))
             (two (Re.chr_is " ") (between "1" "9")))))))))).

(** [datetime.datetime.strptime(s, '%Y-%m-%d').date()] *)
Definition strptime_ymd (s : string) : result date :=
  match Re.rmatch_at ymd_pattern s with
  | Some (g, EmptyString) =>
      match Re.group "Y" g, Re.group "m" g, Re.group "d" g with
      | Some y, Some m, Some d =>
          let y := int_of y in
          let m := int_of m in
          let d := int_of d in
          if (1 <=? y) && (d <=? days_in_month y m) then Ok (mkDate y m d)
          else Raise ValueError
      | _, _, _ => Raise ValueError
      end
  | _ => Raise ValueError
  end.

(** [strptime] applied to a value read from JSON: a [str] or a [TypeError]. *)
Definition strptime (v : json) : result date :=
  match v with
  | JStr s => strptime_ymd s
  | _ => Raise TypeError
  end.

(* ------------------------------------------------------------------ *)
(** ** models.py *)

Record Product : Set := mkProduct {
  name : string;
  quantity : option string;
  unit : option string;
  category : option string;
  purchase_date : option date;
  expiry_date : option date
}.

(** The fields as the class declares them: [name] required, every other
    field [Optional[...] = None]. *)
Definition Product_defaults (n : string) : Product :=
  {| name := n; quantity := None; unit := None; category := None;
     purchase_date := None; expiry_date := None |}.

(** [Product(name=n, unit=u, category=c)] *)
Definition Product_kw (n : string) (u c : option string) : Product :=
  let p := Product_defaults n in
  {| name := name p; quantity := quantity p; unit := u; category := c;
     purchase_date := purchase_date p; expiry_date := expiry_date p |}.

Definition opt_str_field (k : string) (d : dict json) (default : option string)
  : result (option string) :=
  match dict_get k d with
  | None => Ok default
  | Some JNull => Ok None
  | Some (JStr s) => Ok (Some s)
  | Some _ => Raise ValidationError
  end.

Definition opt_date_field (k : string) (d : dict json) (default : option date)
  : result (option date) :=
  match dict_get k d with
  | None => Ok default
  | Some JNull => Ok None
  | Some (JStr s) =>
      match strptime_ymd s with
      | Ok x => Ok (Some x)
      | Raise _ => Raise ValidationError
      end
  | Some _ => Raise ValidationError
  end.

(** [Product] called on [item_data] unpacked as keyword arguments:
    pydantic's validation,
    for the field shapes [save_grocery_list] writes (a string or null; a
    date as its ISO string); an absent field takes the class default, any
    other shape is a [ValidationError]. *)
Definition Product_validate (item_data : json) : result Product :=
  match item_data with
  | JObj d =>
      match dict_get "name" d with
      | Some (JStr n) =>
          let p := Product_defaults n in
          q <- opt_str_field "quantity" d (quantity p) ;;
          u <- opt_str_field "unit" d (unit p) ;;
          c <- opt_str_field "category" d (category p) ;;
          pd <- opt_date_field "purchase_date" d (purchase_date p) ;;
          ed <- opt_date_field "expiry_date" d (expiry_date p) ;;
          Ok (mkProduct n q u c pd ed)
      | _ => Raise ValidationError
      end
  | _ => Raise TypeError
  end.

Definition json_of_opt_str (o : option string) : json :=
  match o with Some s => JStr s | None => JNull end.

Definition json_of_opt_date (o : option date) : json :=
  match o with Some d => JStr (isoformat d) | None => JNull end.

(** [item.dict()] as [json.dump(..., default=str)] writes it. *)
Definition Product_dict (p : Product) : json :=
  JObj [("name", JStr (name p));
        ("quantity", json_of_opt_str (quantity p));
        ("unit", json_of_opt_str (unit p));
        ("category", json_of_opt_str (category p));
        ("purchase_date", json_of_opt_date (purchase_date p));
        ("expiry_date", json_of_opt_date (expiry_date p))].

(* ------------------------------------------------------------------ *)
(** ** The three backing files *)

Inductive file : Type :=
| Missing               (* no such file *)
| Corrupt               (* present, not a JSON document *)
| Doc (j : json).       (* a JSON document *)

Record files : Type := mkFiles {
  grocery_list_file : file;
  purchase_history_file : file;
  categories_file : file
}.

(** [with open(path, 'r') as f: json.load(f)] *)
Definition json_load (f : file) : result json :=
  match f with
  | Missing => Raise FileNotFoundError
  | Corrupt => Raise JSONDecodeError
  | Doc j => Ok j
  end.

(** [obj.items()] on a value read from JSON. *)
Definition json_items (j : json) : result (dict json) :=
  match j with
  | JObj d => Ok d
  | _ => Raise AttributeError
  end.

(** [for x in obj] on a value read from JSON. *)
Definition json_iter (j : json) : result (list json) :=
  match j with
  | JArr l => Ok l
  | JObj d => Ok (map (fun kv => JStr (fst kv)) d)
  | JStr s => Ok (map (fun c => JStr (String c "")) (list_ascii_of_string s))
  | _ => Raise TypeError
  end.

(** [obj[k] = v] on a value read from JSON. *)
Definition json_setitem (obj : json) (k : string) (v : json) : result json :=
  match obj with
  | JObj d => Ok (JObj (dict_set k v d))
  | _ => Raise TypeError
  end.

(* ------------------------------------------------------------------ *)
(** ** assistant_logic.py: class GroceryAssistant *)

Record GroceryAssistant : Type := mkAssistant {
  items : list Product;
  purchase_history : dict json;
  categories : json;
  disk : files
}.

Definition set_items (l : list Product) (self : GroceryAssistant) : GroceryAssistant :=
  mkAssistant l (purchase_history self) (categories self) (disk self).

Definition set_purchase_history (h : dict json) (self : GroceryAssistant) : GroceryAssistant :=
  mkAssistant (items self) h (categories self) (disk self).

Definition set_disk (fs : files) (self : GroceryAssistant) : GroceryAssistant :=
  mkAssistant (items self) (purchase_history self) (categories self) fs.

Definition write_grocery_list (j : json) (fs : files) : files :=
  mkFiles (Doc j) (purchase_history_file fs) (categories_file fs).

Definition write_purchase_history (j : json) (fs : files) : files :=
  mkFiles (grocery_list_file fs) (Doc j) (categories_file fs).

Definition LAST := "last_purchase_date".

(** The body of the normalization loop of [load_purchase_history]. *)
Definition normalize_step (normalized_history : dict json) (kv : string * json)
  : result (dict json) :=
  let (key, value) := kv in
  let lower_key := PyStr.lower key in
  match dict_get lower_key normalized_history with
  | Some existing =>
      e <- subscript existing LAST ;;
      existing_date <- strptime e ;;
      n <- subscript value LAST ;;
      new_date <- strptime n ;;
      if date_gt new_date existing_date then
        entry <- json_setitem existing LAST n ;;
        Ok (dict_set lower_key entry normalized_history)
      else Ok normalized_history
  | None => Ok (dict_set lower_key value normalized_history)
  end.

(** [try: ... except (FileNotFoundError, json.JSONDecodeError): handler] *)
Definition except_missing_or_malformed {A} (body : result A) (handler : A) : result A :=
  match body with
  | Raise FileNotFoundError => Ok handler
  | Raise JSONDecodeError => Ok handler
  | r => r
  end.

(** [try: ... except FileNotFoundError: handler] *)
Definition except_missing {A} (body : result A) (handler : A) : result A :=
  match body with
  | Raise FileNotFoundError => Ok handler
  | r => r
  end.

(** Returns the history and the files as the call leaves them. *)
Definition load_purchase_history (fs : files) : result (dict json * files) :=
  except_missing_or_malformed
    (history <- json_load (purchase_history_file fs) ;;
     entries <- json_items history ;;
     normalized_history <- foldM normalize_step entries [] ;;
     Ok (normalized_history, write_purchase_history (JObj normalized_history) fs))
    ([], fs).

Definition load_categories (fs : files) : result json :=
  except_missing (json_load (categories_file fs)) (JObj []).

Fixpoint mapM {A B} (f : A -> result B) (l : list A) : result (list B) :=
  match l with
  | [] => Ok []
  | x :: rest => y <- f x ;; ys <- mapM f rest ;; Ok (y :: ys)
  end.

Definition load_grocery_list (self : GroceryAssistant) : result GroceryAssistant :=
  l <- except_missing_or_malformed
         (data <- json_load (grocery_list_file (disk self)) ;;
          elems <- json_iter data ;;
          mapM Product_validate elems)
         [] ;;
  Ok (set_items l self).

(** [GroceryAssistant(purchase_history_file, grocery_list_file)] *)
Definition init (fs : files) : result GroceryAssistant :=
  hf <- load_purchase_history fs ;;
  let (h, fs1) := (hf : dict json * files) in
  c <- load_categories fs1 ;;
  load_grocery_list (mkAssistant [] h c fs1).

Definition save_grocery_list (self : GroceryAssistant) : GroceryAssistant :=
  set_disk (write_grocery_list (JArr (map Product_dict (items self))) (disk self)) self.

Definition add_item_to_list (item : Product) (self : GroceryAssistant)
  : Product * GroceryAssistant :=
  let self := set_items (items self ++ [item]) self in
  let self := save_grocery_list self in
  (item, self).

Definition remove_item_from_list (item_name : string) (self : GroceryAssistant)
  : bool * GroceryAssistant :=
  let initial_count := length (items self) in
  let self :=
    set_items
      (filter (fun item =>
                 negb (String.eqb (PyStr.lower (name item)) (PyStr.lower item_name)))
              (items self))
      self in
  if Nat.ltb (length (items self)) initial_count
  then (true, save_grocery_list self)
  else (false, self).

Definition get_grocery_list (self : GroceryAssistant) : list Product := items self.

(** [x in s] for a Python [set] of strings. *)
Definition set_mem (x : string) (s : list string) : bool := existsb (String.eqb x) s.

(** [s.add(x)] *)
Definition set_add (x : string) (s : list string) : list string :=
  if set_mem x s then s else x :: s.

Definition missing_msg (item_name : string) : string :=
  ("You bought " ++ item_name ++ " a last week, consider adding it.")%string.

(** The body of the loop of [suggest_missing_items]; the loop state is
    [(suggestions, processed_items)]. *)
Definition missing_step (today : date) (current_list_lower : list string)
    (acc : list string * list string) (kv : string * json)
  : result (list string * list string) :=
  let (suggestions, processed_items) := acc in
  let (item_name, data) := kv in
  let item_name_lower := PyStr.lower item_name in
  if set_mem item_name_lower processed_items then Ok (suggestions, processed_items)
  else
    let processed_items := set_add item_name_lower processed_items in
    if negb (set_mem item_name_lower current_list_lower) then
      s <- subscript data LAST ;;
      last_purchase_date <- strptime s ;;
      if days_between today last_purchase_date >? 7
      then Ok (suggestions ++ [missing_msg item_name], processed_items)
      else Ok (suggestions, processed_items)
    else Ok (suggestions, processed_items).

Definition suggest_missing_items (today : date) (self : GroceryAssistant)
  : result (list string) :=
  let current_list_lower :=
    fold_left (fun s item => set_add (PyStr.lower (name item)) s) (items self) [] in
  r <- foldM (missing_step today current_list_lower) (purchase_history self) ([], []) ;;
  Ok (fst r).

Definition healthier_alternatives : dict string :=
  [("white bread", "brown bread");
   ("soda", "water");
   ("chips", "nuts");
   ("white rice", "brown rice");
   ("regular milk", "almond milk");
   ("butter", "olive oil");
   ("ice cream", "greek yogurt");
   ("cookies", "whole grain oats");
   ("candy", "fresh fruit")].

Definition suggest_healthier_alternatives (self : GroceryAssistant) : list string :=
  fold_left
    (fun suggestions item =>
       match dict_get (PyStr.lower (name item)) healthier_alternatives with
       | Some suggestion =>
           suggestions ++
           [("Instead of " ++ name item ++ ", consider " ++ suggestion
             ++ " as a healthier alternative.")%string]
       | None => suggestions
       end)
    (items self) [].

Definition reminder_msg (item : Product) (time_to_expiry : Z) : string :=
  ("Reminder: " ++ name item ++ " is expiring in " ++ PyStr.of_int time_to_expiry
   ++ " days.")%string.

(** The body of the loop of [get_expiry_reminders]. *)
Definition expiry_step (today : date) (reminders : list string) (item : Product)
  : list string :=
  match expiry_date item with
  | Some e =>
      let time_to_expiry := days_between e today in
      if (1 <=? time_to_expiry) && (time_to_expiry <=? 5)
      then reminders ++ [reminder_msg item time_to_expiry]
      else reminders
  | None => reminders
  end.

Definition get_expiry_reminders (today : date) (self : GroceryAssistant) : list string :=
  fold_left (expiry_step today) (items self) [].

Definition purchased_msg := "Purchase history updated and grocery list cleared.".

Definition mark_items_as_purchased (today : date) (self : GroceryAssistant)
  : string * GroceryAssistant :=
  let today_str := isoformat today in
  let history :=
    fold_left
      (fun h item => dict_set (PyStr.lower (name item)) (JObj [(LAST, JStr today_str)]) h)
      (items self) (purchase_history self) in
  let self := set_purchase_history history self in
  let self := set_disk (write_purchase_history (JObj history) (disk self)) self in
  let self := set_items [] self in
  let self := save_grocery_list self in
  (purchased_msg, self).

(* ------------------------------------------------------------------ *)
(** ** chatbot_logic.py: class Chatbot *)

Record Reply : Set := mkReply { reply : string; refresh : bool }.

Definition nl : string := String "010"%char "".

(** [add\s+((?P<quantity>\d+(\.\d+)?)\s+)?(?P<unit>\w+)?(\s+of)?\s+(?P<name>[\w\s]+?)(\s+to\s+(?P<category>\w+))?$] *)
Definition add_pattern : Re.regex :=
  Re.Seq (Re.Lit "add")
  (Re.Seq Re.ws
  (Re.Seq (Re.Opt (Re.Seq (Re.Group "quantity"
                             (Re.Seq Re.digits (Re.Opt (Re.Seq (Re.Lit ".") Re.digits))))
                          Re.ws))
  (Re.Seq (Re.Opt (Re.Group "unit" Re.word))
  (Re.Seq (Re.Opt (Re.Seq Re.ws (Re.Lit "of")))
  (Re.Seq Re.ws
  (Re.Seq (Re.Group "name" (Re.PlusLazy Re.word_or_space))
  (Re.Seq (Re.Opt (Re.Seq Re.ws (Re.Seq (Re.Lit "to")
                     (Re.Seq Re.ws (Re.Group "category" Re.word)))))
          Re.Eos))))))).

(** [remove\s+(?P<name>[\w\s]+)] *)
Definition remove_pattern : Re.regex :=
  Re.Seq (Re.Lit "remove") (Re.Seq Re.ws (Re.Group "name" (Re.Plus Re.word_or_space))).

Definition add_usage :=
  "I'm sorry, I couldn't figure out what to add. Please use the format: 'add [quantity] [unit] of [item name] to [category]'".

Definition remove_usage :=
  "I'm sorry, I couldn't figure out what to remove. Please use the format: 'remove [item name]'".

(** [x or "pcs"] *)
Definition or_pcs (x : option string) : string :=
  match x with
  | Some (String c s) => String c s
  | _ => "pcs"
  end.

(** [m.group(name).strip()]; [None] has no [strip]. *)
Definition group_strip (name : string) (m : Re.groups) : result string :=
  match Re.group name m with
  | Some s => Ok (PyStr.strip s)
  | None => Raise AttributeError
  end.

Definition _handle_add (message : string) (a : GroceryAssistant)
  : result ((string * bool) * GroceryAssistant) :=
  match Re.search add_pattern message with
  | None => Ok ((add_usage, false), a)
  | Some m =>
      item_name <- group_strip "name" m ;;
      let unit := or_pcs (Re.group "unit" m) in
      let category := Re.group "category" m in
      let product := Product_kw item_name (Some unit) category in
      let (_, a) := add_item_to_list product a in
      Ok ((("I've added " ++ item_name ++ " to your list.")%string, true), a)
  end.

Definition _handle_remove (message : string) (a : GroceryAssistant)
  : result ((string * bool) * GroceryAssistant) :=
  match Re.search remove_pattern message with
  | None => Ok ((remove_usage, false), a)
  | Some m =>
      item_name <- group_strip "name" m ;;
      let (removed, a) := remove_item_from_list item_name a in
      if removed
      then Ok ((("I've removed " ++ item_name ++ " from your list.")%string, true), a)
      else Ok ((("I couldn't find " ++ item_name ++ " in your list.")%string, false), a)
  end.

Definition _handle_expiring (today : date) (message : string) (a : GroceryAssistant)
  : (string * bool) * GroceryAssistant :=
  match get_expiry_reminders today a with
  | [] => (("You have no items expiring soon.", false), a)
  | reminders =>
      ((("Here are the items that are expiring soon:" ++ nl ++ PyStr.join nl reminders)%string,
        false), a)
  end.

Definition _handle_suggestions (today : date) (message : string) (a : GroceryAssistant)
  : result ((string * bool) * GroceryAssistant) :=
  missing <- suggest_missing_items today a ;;
  let healthier := suggest_healthier_alternatives a in
  let suggestions := [] in
  let suggestions :=
    match missing with
    | [] => suggestions
    | _ => suggestions ++ [("Missing items:" ++ nl ++ PyStr.join nl missing)%string]
    end in
  let suggestions :=
    match healthier with
    | [] => suggestions
    | _ => suggestions ++ [("Healthier alternatives:" ++ nl ++ PyStr.join nl healthier)%string]
    end in
  match suggestions with
  | [] => Ok (("I have no suggestions for you right now.", false), a)
  | _ => Ok ((PyStr.join (nl ++ nl) suggestions, false), a)
  end.

Definition _get_list (a : GroceryAssistant) : string :=
  match items a with
  | [] => "Your grocery list is empty."
  | l =>
      fold_left
        (fun list_str item =>
           let list_str :=
             (list_str ++ "- " ++ name item ++ " (" ++ PyStr.of_opt (unit item))%string in
           let list_str :=
             if PyStr.truthy (category item)
             then (list_str ++ ", " ++ PyStr.of_opt (category item))%string
             else list_str in
           (list_str ++ ")" ++ nl)%string)
        l ("Here's your grocery list:" ++ nl)%string
  end.

Definition _handle_list (message : string) (a : GroceryAssistant)
  : (string * bool) * GroceryAssistant :=
  ((_get_list a, false), a).

Definition _handle_clear (today : date) (message : string) (a : GroceryAssistant)
  : (string * bool) * GroceryAssistant :=
  let (_, a) := mark_items_as_purchased today a in
  (("I've cleared your grocery list and updated your purchase history.", true), a).

Definition _handle_purchase (today : date) (message : string) (a : GroceryAssistant)
  : (string * bool) * GroceryAssistant :=
  let (_, a) := mark_items_as_purchased today a in
  (("I've marked all items as purchased and updated your purchase history.", true), a).

Definition fallback_reply := "Sorry, I don't understand.".
Definition greeting_reply := "Hello! How can I help you with your groceries today?".

Definition get_reply (today : date) (message : string) (a : GroceryAssistant)
  : result (Reply * GroceryAssistant) :=
  let message := PyStr.lower message in
  let reply := fallback_reply in
  let refresh := false in
  r <- (if PyStr.contains "add" message then _handle_add message a
        else if PyStr.contains "remove" message then _handle_remove message a
        else if PyStr.contains "expiring" message then Ok (_handle_expiring today message a)
        else if PyStr.contains "suggestions" message then _handle_suggestions today message a
        else if PyStr.contains "list" message || PyStr.contains "show list" message
             then Ok (_handle_list message a)
        else if PyStr.contains "clear list" message then Ok (_handle_clear today message a)
        else if PyStr.contains "purchase" message then Ok (_handle_purchase today message a)
        else if PyStr.contains "hello" message || PyStr.contains "hi" message
             then Ok ((greeting_reply, refresh), a)
        else Ok ((reply, refresh), a)) ;;
  let '((reply, refresh), a) := r in
  Ok (mkReply reply refresh, a).

(* ------------------------------------------------------------------ *)
(** ** The dispatch order, as the specification words it

    A priority table of keyword groups and the first-match rule over it,
    to compare with the [if]/[elif] chain of [get_reply]. *)

Inductive handler : Set :=
| HAdd | HRemove | HExpiring | HSuggestions | HList | HClear | HPurchase
| HGreeting | HFallback.

Definition priority : list (list string * handler) :=
  [(["add"], HAdd);
   (["remove"], HRemove);
   (["expiring"], HExpiring);
   (["suggestions"], HSuggestions);
   (["list"; "show list"], HList);
   (["clear list"], HClear);
   (["purchase"], HPurchase);
   (["hello"; "hi"], HGreeting)].

Fixpoint first_match (table : list (list string * handler)) (message : string) : handler :=
  match table with
  | [] => HFallback
  | (keywords, h) :: rest =>
      if existsb (fun kw => PyStr.contains kw message) keywords then h
      else first_match rest message
  end.

Definition run_handler (h : handler) (today : date) (message : string) (a : GroceryAssistant)
  : result ((string * bool) * GroceryAssistant) :=
  match h with
  | HAdd => _handle_add message a
  | HRemove => _handle_remove message a
  | HExpiring => Ok (_handle_expiring today message a)
  | HSuggestions => _handle_suggestions today message a
  | HList => Ok (_handle_list message a)
  | HClear => Ok (_handle_clear today message a)
  | HPurchase => Ok (_handle_purchase today message a)
  | HGreeting => Ok ((greeting_reply, false), a)
  | HFallback => Ok ((fallback_reply, false), a)
  end.

(** What [get_reply] returns from a handler's pair. *)
Definition as_reply (r : result ((string * bool) * GroceryAssistant))
  : result (Reply * GroceryAssistant) :=
  x <- r ;;
  let '((reply, refresh), a) := x in
  Ok (mkReply reply refresh, a).

(* ------------------------------------------------------------------ *)
(** ** assistant_logic.py: category browsing *)

Definition get_categories (self : GroceryAssistant) : json := categories self.

(** [self.categories.get(category, [])]; only a [dict] has [get]. *)
Definition get_category_items (category : string) (self : GroceryAssistant) : result json :=
  match categories self with
  | JObj d =>
      match dict_get category d with
      | Some listed => Ok listed
      | None => Ok (JArr [])
      end
  | _ => Raise AttributeError
  end.

(* ------------------------------------------------------------------ *)
(** ** main.py: the endpoints that reload before they answer *)

Module Api.

(** [GET /suggestions/missing] *)
Definition get_missing_item_suggestions (today : date) (a : GroceryAssistant)
  : result (list string * GroceryAssistant) :=
  hf <- load_purchase_history (disk a) ;;
  let a := set_disk (snd hf) (set_purchase_history (fst hf) a) in
  a <- load_grocery_list a ;;
  suggestions <- suggest_missing_items today a ;;
  Ok (suggestions, a).

(** [GET /suggestions/healthier] *)
Definition get_healthier_alternative_suggestions (a : GroceryAssistant)
  : result (list string * GroceryAssistant) :=
  a <- load_grocery_list a ;;
  Ok (suggest_healthier_alternatives a, a).

(** [GET /reminders/expiry] *)
Definition get_expiry_reminders (today : date) (a : GroceryAssistant)
  : result (list string * GroceryAssistant) :=
  a <- load_grocery_list a ;;
  Ok (get_expiry_reminders today a, a).

End Api.

(* ------------------------------------------------------------------ *)
(** ** product.py: the earlier Product class

    [name] and [category] are stored and written as they come, so they are
    JSON values here; the two dates are [date] objects or [None]. *)

Module Legacy.

Record Product : Type := mkProduct {
  name : json;
  category : json;
  purchase_date : option date;
  expiry_date : option date
}.

(** [x.isoformat()] for an [x] that may be [None]. *)
Definition isoformat_of (x : option date) : result json :=
  match x with
  | Some d => Ok (JStr (isoformat d))
  | None => Raise AttributeError
  end.

Definition to_dict (self : Product) : result json :=
  p <- isoformat_of (purchase_date self) ;;
  e <- match expiry_date self with
       | Some _ => isoformat_of (expiry_date self)
       | None => Ok JNull
       end ;;
  Ok (JObj [("name", name self); ("category", category self);
            ("purchase_date", p); ("expiry_date", e)]).

(** A JSON number is zero when its digits before the exponent are all 0;
    [NaN] and [Infinity], which [json.load] also reads, are not. *)
Fixpoint zero_lexeme (s : string) : bool :=
  match s with
  | EmptyString => true
  | String c rest =>
      if Ascii.eqb c "e" || Ascii.eqb c "E" then true
      else if Ascii.eqb c "0" || Ascii.eqb c "." || Ascii.eqb c "-" then zero_lexeme rest
      else false
  end.

(** Truthiness of a value read from JSON. *)
Definition truthy (v : json) : bool :=
  match v with
  | JNull => false
  | JBool b => b
  | JNum lexeme => negb (zero_lexeme lexeme)
  | JStr s => negb (String.eqb s "")
  | JArr l => match l with [] => false | _ => true end
  | JObj d => match d with [] => false | _ => true end
  end.

Definition from_dict (data : json) : result Product :=
  p <- subscript data "purchase_date" ;;
  purchase_date <- strptime p ;;
  e <- subscript data "expiry_date" ;;
  expiry_date <- (if truthy e
                  then (e <- subscript data "expiry_date" ;;
                        d <- strptime e ;; Ok (Some d))
                  else Ok None) ;;
  n <- subscript data "name" ;;
  c <- subscript data "category" ;;
  Ok (mkProduct n c (Some purchase_date) expiry_date).

End Legacy.

(* ------------------------------------------------------------------ *)
(** ** Notions the properties are stated with *)

(** The entries [remove_item_from_list] takes out: those whose lower-cased
    name is the lower-cased query. *)
Definition matches (query : string) (item : Product) : Prop :=
  PyStr.lower (name item) = PyStr.lower query.

(** The history entry [mark_items_as_purchased] writes. *)
Definition today_entry (today : date) : json := JObj [(LAST, JStr (isoformat today))].

(** What one item adds to the reminders. *)
Definition expiry_emit (today : date) (item : Product) : list string :=
  expiry_step today [] item.

(** The last purchase date an entry holds. *)
Definition entry_date (v : json) : result date :=
  s <- subscript v LAST ;; strptime s.

(** Every entry holds a date [strptime] reads. *)
Definition dated (raw : dict json) : bool :=
  forallb (fun kv => match entry_date (snd kv) with Ok _ => true | Raise _ => false end) raw.

(** The state of the loop after the raw entries [done]. *)
Record normalized_upto (done : dict json) (norm : dict json) : Prop := {
  upto_covers : forall k0 v0, In (k0, v0) done ->
      exists v, dict_get (PyStr.lower k0) norm = Some v;
  upto_latest : forall n v, dict_get n norm = Some v ->
      exists d, entry_date v = Ok d /\
        (exists k0 v0, In (k0, v0) done /\ PyStr.lower k0 = n /\
                       subscript v0 LAST = subscript v LAST) /\
        (forall k0 v0 d0, In (k0, v0) done -> PyStr.lower k0 = n ->
                          entry_date v0 = Ok d0 -> date_gt d0 d = false);
  upto_nodup : NoDup (keys norm)
}.

(** [k] is suggested after the entries [done]: it is the key of an entry
    that is the first with its lower-cased name, is not on the list, and was
    bought more than 7 days ago. *)
Definition suggested (today : date) (current_list_lower : list string)
    (done : dict json) (k : string) : Prop :=
  exists pre v post d,
    done = pre ++ (k, v) :: post /\
    ~ In (PyStr.lower k) (map PyStr.lower (keys pre)) /\
    set_mem (PyStr.lower k) current_list_lower = false /\
    entry_date v = Ok d /\
    days_between today d > 7.

(** The state of the loop of [suggest_missing_items] after the entries [done]. *)
Record suggested_upto (today : date) (current_list_lower : list string)
    (done : dict json) (acc : list string * list string) : Prop := {
  upto_processed : forall n, In n (snd acc) <-> In n (map PyStr.lower (keys done));
  upto_names : exists names,
      fst acc = map missing_msg names /\
      NoDup (map PyStr.lower names) /\
      forall k, In k names <-> suggested today current_list_lower done k
}.

(** No string occurs twice. *)
Fixpoint distinct (l : list string) : bool :=
  match l with
  | [] => true
  | x :: rest => negb (set_mem x rest) && distinct rest
  end.

(** The invariant of the purchase history in memory: one entry per key,
    every key lower-cased. *)
Definition normal_history (h : dict json) : Prop :=
  NoDup (keys h) /\ forall k, In k (keys h) -> PyStr.lower k = k.

(** What the body of the normalization loop can raise. *)
Definition lookup_error (e : exn) : Prop := e = KeyError \/ e = TypeError \/ e = ValueError.

(** A date [datetime.date] can hold. *)
Definition valid_date (d : date) : bool :=
  (1 <=? year d) && (year d <=? 9999) && (1 <=? month d) && (month d <=? 12) &&
  (1 <=? day d) && (day d <=? days_in_month (year d) (month d)).

Definition valid_opt_date (o : option date) : bool :=
  match o with Some d => valid_date d | None => true end.

(** An item whose dates are dates. *)
Definition valid_item (p : Product) : bool :=
  valid_opt_date (purchase_date p) && valid_opt_date (expiry_date p).

(** The year, as [isoformat] prints it, is four digits that read back. *)
Definition year_check (y : Z) : bool :=
  match zero_pad 4 y with
  | String c1 (String c2 (String c3 (String c4 EmptyString))) =>
      PyStr.isdigit c1 && PyStr.isdigit c2 && PyStr.isdigit c3 && PyStr.isdigit c4 &&
      (int_of (String c1 (String c2 (String c3 (String c4 EmptyString)))) =? y)
  | _ => false
  end.

(** [check] holds on [count] integers from [from] on. *)
Fixpoint all_from (check : Z -> bool) (count : nat) (from : Z) : bool :=
  match count with
  | O => true
  | S n => check from && all_from check n (from + 1)
  end.

(** The files mirror the assistant: what a restart would read is what the
    assistant holds. *)
Record persisted (a : GroceryAssistant) : Prop := {
  persisted_list :
    grocery_list_file (disk a) = Doc (JArr (map Product_dict (items a)));
  persisted_history :
    purchase_history_file (disk a) = Doc (JObj (purchase_history a));
  persisted_categories :
    categories_file (disk a) = Doc (categories a) \/
    (categories_file (disk a) = Missing /\ categories a = JObj []);
  persisted_normal : normal_history (purchase_history a);
  persisted_valid : forallb valid_item (items a) = true
}.

(** Every character is its own lower case. *)
Fixpoint is_lower (s : string) : bool :=
  match s with
  | EmptyString => true
  | String c rest => Ascii.eqb (PyStr.lower_char c) c && is_lower rest
  end.

Definition is_lower_opt (o : option string) : bool :=
  match o with Some s => is_lower s | None => true end.

(** Every captured group is in lower case. *)
Definition groups_lower (g : Re.groups) : Prop :=
  forall n v, dict_get n g = Some v -> is_lower v = true.

(** The line of an item in the list the chat shows. *)
Definition list_line (item : Product) : string :=
  ("- " ++ name item ++ " (" ++ PyStr.of_opt (unit item)
   ++ (if PyStr.truthy (category item) then ", " ++ PyStr.of_opt (category item) else "")
   ++ ")" ++ nl)%string.

(** The number of whitespace characters of a text. *)
Fixpoint spaces (s : string) : nat :=
  match s with
  | EmptyString => O
  | String c rest => ((if PyStr.isspace c then 1 else 0) + spaces rest)%nat
  end.

Definition all_ascii : list ascii := map ascii_of_nat (seq 0 256).

(** The class [p] has whitespace only. *)
Definition only_space (p : ascii -> bool) : bool :=
  forallb (fun c => implb (p c) (PyStr.isspace c)) all_ascii.

(** Whitespace characters every match of a pattern is sure to consume. *)
Fixpoint min_spaces (r : Re.regex) : nat :=
  match r with
  | Re.Chr p => if only_space p then 1 else 0
  | Re.Plus p => if only_space p then 1 else 0
  | Re.PlusLazy p => if only_space p then 1 else 0
  | Re.Seq r1 r2 => (min_spaces r1 + min_spaces r2)%nat
  | Re.Alt r1 r2 => Nat.min (min_spaces r1) (min_spaces r2)
  | Re.Group _ r1 => min_spaces r1
  | _ => O
  end.

(** [normal_history], decided. *)
Definition normal_check (h : dict json) : bool :=
  distinct (keys h) && forallb (fun k => String.eqb (PyStr.lower k) k) (keys h).



(* ------------------------------------------------------------------ *)
(** ** Sample data *)

Definition a_monday : date := mkDate 2025 11 3.
Definition no_files : files := mkFiles Missing Missing Missing.
Definition fresh_assistant : GroceryAssistant := mkAssistant [] [] (JObj []) no_files.

Definition two_milks : dict json :=
  [("Milk", JObj [("last_purchase_date", JStr "2025-10-20")]);
   ("Eggs", JObj [("last_purchase_date", JStr "2025-10-21")]);
   ("milk", JObj [("last_purchase_date", JStr "2025-10-27")]);
   ("MILK", JObj [("last_purchase_date", JStr "2025-10-22")])].

Definition last_week_history : dict json :=
  [("milk", JObj [("last_purchase_date", JStr "2025-10-26")]);
   ("eggs", JObj [("last_purchase_date", JStr "2025-10-27")]);
   ("bread", JObj [("last_purchase_date", JStr "2025-09-01")])].

Definition bread_on_list : GroceryAssistant :=
  mkAssistant [Product_defaults "Bread"] last_week_history (JObj []) no_files.

Definition dairy_shelf : GroceryAssistant :=
  set_items
    [mkProduct "Milk" None (Some "l") None None (Some (mkDate 2025 11 4));
     mkProduct "Yogurt" None None None None (Some (mkDate 2025 11 9));
     mkProduct "Butter" None None None None (Some (mkDate 2025 11 3));
     mkProduct "Cream" None None None None (Some (mkDate 2025 11 2));
     mkProduct "Salt" None None None None None]
    fresh_assistant.

Definition dated_milk : Product :=
  mkProduct "Milk" (Some "2") (Some "l") (Some "Dairy & Eggs")
            (Some (mkDate 2025 11 1)) (Some (mkDate 2025 11 7)).

Definition legacy_milk : Legacy.Product :=
  Legacy.mkProduct (JStr "Milk") (JStr "Dairy") (Some (mkDate 2024 2 29)) None.

Definition kept_history : dict json :=
  [("milk", JObj [("last_purchase_date", JStr "2025-10-20")])].

Definition kept_catalog : json :=
  JObj [("Dairy & Eggs", JArr [JStr "Milk"; JStr "Butter"])].

(** An assistant with its three files as it would have written them. *)
Definition kept_assistant : GroceryAssistant :=
  mkAssistant [dated_milk] kept_history kept_catalog
    (mkFiles (Doc (JArr [Product_dict dated_milk])) (Doc (JObj kept_history))
             (Doc kept_catalog)).

Definition soda_and_milk : GroceryAssistant :=
  set_items [Product_defaults "Soda"; dated_milk] fresh_assistant.

(* ================================================================== *)
(** * Properties *)

(** ** Lists and records *)

Lemma set_items_same (self : GroceryAssistant) : set_items (items self) self = self.
Proof. destruct self; reflexivity. Qed.

Lemma filter_keeps_length {A} (f : A -> bool) (l : list A) :
  (length l <= length (filter f l))%nat -> filter f l = l.
Proof.
  induction l as [|x l IH]; simpl; intros H; [reflexivity|].
  pose proof (filter_length_le f l) as Hle.
  destruct (f x); simpl in H.
  - f_equal. apply IH. lia.
  - lia.
Qed.

Lemma filter_drops_length {A} (f : A -> bool) (l : list A) :
  (length (filter f l) < length l)%nat <-> exists x, In x l /\ f x = false.
Proof.
  split.
  - induction l as [|x l IH]; simpl; [lia|].
    destruct (f x) eqn:E; simpl; intros H.
    + destruct IH as [y [Hy Hf]]; [lia|]. exists y; auto.
    + exists x; auto.
  - intros [x [Hin Hf]].
    destruct (Nat.lt_ge_cases (length (filter f l)) (length l)) as [|Hge]; [assumption|].
    apply filter_keeps_length in Hge.
    rewrite <- Hge in Hin. apply filter_In in Hin. destruct Hin; congruence.
Qed.

(** ** C8: add, then read *)

(** C8.  For every item and every list state, [add_item_to_list] returns
    the item it was given, and the list read afterwards is the list read
    before with exactly that item appended at the end: the earlier entries
    are untouched, the new last entry is the item with each of its six
    fields unchanged, and the list file holds the new list. *)
Theorem add_then_read_roundtrip (item : Product) (self : GroceryAssistant) :
  let stored := fst (add_item_to_list item self) in
  let self' := snd (add_item_to_list item self) in
  stored = item /\
  get_grocery_list self' = get_grocery_list self ++ [item] /\
  length (get_grocery_list self') = S (length (get_grocery_list self)) /\
  (forall i, (i < length (get_grocery_list self))%nat ->
     nth_error (get_grocery_list self') i = nth_error (get_grocery_list self) i) /\
  (exists p, nth_error (get_grocery_list self') (length (get_grocery_list self)) = Some p /\
     name p = name item /\ quantity p = quantity item /\ unit p = unit item /\
     category p = category item /\ purchase_date p = purchase_date item /\
     expiry_date p = expiry_date item) /\
  grocery_list_file (disk self') = Doc (JArr (map Product_dict (get_grocery_list self'))) /\
  purchase_history_file (disk self') = purchase_history_file (disk self) /\
  categories_file (disk self') = categories_file (disk self) /\
  purchase_history self' = purchase_history self /\
  categories self' = categories self.
Proof.
  unfold add_item_to_list, get_grocery_list; simpl.
  repeat split.
  - rewrite length_app; simpl; lia.
  - intros i Hi. apply nth_error_app1; assumption.
  - exists item. split; [|repeat split].
    rewrite nth_error_app2 by lia. rewrite Nat.sub_diag. reflexivity.
Qed.

(** ** C1: remove by name *)

Lemma matches_eqb (query : string) (item : Product) :
  String.eqb (PyStr.lower (name item)) (PyStr.lower query) = true <-> matches query item.
Proof. apply String.eqb_eq. Qed.

(** C1.  For every list and every query, [remove_item_from_list] keeps, in
    their order, exactly the entries whose lower-cased name differs from
    the lower-cased query, so every matching entry goes, not only the
    first; it returns [true] iff some entry matched; it rewrites the list
    file when it returns [true] and touches nothing when it returns
    [false]. *)
Theorem remove_item_from_list_spec (query : string) (self : GroceryAssistant) :
  let removed := fst (remove_item_from_list query self) in
  let self' := snd (remove_item_from_list query self) in
  (forall item, In item (items self') <-> In item (items self) /\ ~ matches query item) /\
  items self' =
    filter (fun item => negb (String.eqb (PyStr.lower (name item)) (PyStr.lower query)))
           (items self) /\
  (forall item, In item (items self') -> ~ matches query item) /\
  (removed = true <-> exists item, In item (items self) /\ matches query item) /\
  (removed = true ->
     disk self' = write_grocery_list (JArr (map Product_dict (items self'))) (disk self)) /\
  (removed = false -> self' = self) /\
  purchase_history self' = purchase_history self /\
  categories self' = categories self /\
  purchase_history_file (disk self') = purchase_history_file (disk self) /\
  categories_file (disk self') = categories_file (disk self).
Proof.
  set (keep := fun item : Product =>
                 negb (String.eqb (PyStr.lower (name item)) (PyStr.lower query))).
  assert (Hkeep : forall item, keep item = true <-> ~ matches query item).
  { intros item. unfold keep. rewrite negb_true_iff, <- not_true_iff_false, matches_eqb.
    reflexivity. }
  assert (Hdrop : forall item, keep item = false <-> matches query item).
  { intros item. unfold keep. rewrite negb_false_iff, matches_eqb. reflexivity. }
  unfold remove_item_from_list. fold keep. cbn [items set_items].
  destruct (Nat.ltb (length (filter keep (items self))) (length (items self))) eqn:Hlt;
    cbn [fst snd].
  - apply Nat.ltb_lt in Hlt.
    assert (Hex : exists item, In item (items self) /\ matches query item).
    { apply filter_drops_length in Hlt. destruct Hlt as [x [Hin Hx]].
      exists x. split; [assumption | apply Hdrop; assumption]. }
    cbn.
    split. { intros item. rewrite filter_In, Hkeep. reflexivity. }
    split. { reflexivity. }
    split. { intros item Hin. apply filter_In in Hin. apply Hkeep. tauto. }
    split. { tauto. }
    split. { reflexivity. }
    split. { discriminate. }
    repeat split.
  - apply Nat.ltb_ge in Hlt.
    pose proof (filter_keeps_length keep (items self) Hlt) as Hsame.
    assert (Hnone : forall item, In item (items self) -> ~ matches query item).
    { intros item Hin. rewrite <- Hsame in Hin. apply filter_In in Hin.
      apply Hkeep. tauto. }
    cbn. rewrite Hsame.
    split. { intros item. split; [intros Hin; auto | tauto]. }
    split. { reflexivity. }
    split. { assumption. }
    split. { split; [discriminate|]. intros [item [Hin Hm]]. exfalso. exact (Hnone item Hin Hm). }
    split. { discriminate. }
    split. { intros _. apply set_items_same. }
    repeat split.
Qed.

(** ** Dictionaries *)

Section DictFacts.
Context {V : Type}.
Implicit Types (d : dict V) (k : string) (v : V).

Lemma dict_get_set_same k v d : dict_get k (dict_set k v d) = Some v.
Proof.
  induction d as [|[k' v'] d IH]; simpl.
  - rewrite String.eqb_refl. reflexivity.
  - destruct (String.eqb k' k) eqn:E; simpl; rewrite E; auto.
Qed.

Lemma dict_get_set_other k k' v d :
  k <> k' -> dict_get k' (dict_set k v d) = dict_get k' d.
Proof.
  intros Hne. induction d as [|[k0 v0] d IH]; simpl.
  - destruct (String.eqb_spec k k'); [contradiction | reflexivity].
  - destruct (String.eqb_spec k0 k) as [->|Hk]; simpl.
    + destruct (String.eqb_spec k k'); [contradiction | reflexivity].
    + destruct (String.eqb k0 k'); auto.
Qed.

Lemma dict_get_In k v d : dict_get k d = Some v -> In (k, v) d.
Proof.
  induction d as [|[k' v'] d IH]; simpl; [discriminate|].
  destruct (String.eqb_spec k' k) as [->|Hk]; intros H.
  - left. congruence.
  - right. auto.
Qed.

Lemma dict_get_keys k d : In k (keys d) <-> exists v, dict_get k d = Some v.
Proof.
  unfold keys. induction d as [|[k' v'] d IH]; simpl.
  - split; [tauto | intros [v H]; discriminate].
  - destruct (String.eqb_spec k' k) as [->|Hk].
    + split; [exists v'; reflexivity | auto].
    + rewrite <- IH. split; [intros [H|H]; [contradiction | assumption] | auto].
Qed.

Lemma dict_get_unique k v d : NoDup (keys d) -> In (k, v) d -> dict_get k d = Some v.
Proof.
  unfold keys. induction d as [|[k' v'] d IH]; simpl; [tauto|].
  intros Hnd [Heq|Hin]; inversion Hnd as [|? ? Hnotin Hnd']; subst.
  - inversion Heq; subst. rewrite String.eqb_refl. reflexivity.
  - destruct (String.eqb_spec k' k) as [->|Hk]; [|auto].
    exfalso. apply Hnotin. apply (in_map fst) in Hin. exact Hin.
Qed.

Lemma keys_dict_set k v d :
  keys (dict_set k v d) = if dict_mem k d then keys d else keys d ++ [k].
Proof.
  unfold keys, dict_mem. induction d as [|[k' v'] d IH]; simpl; [reflexivity|].
  destruct (String.eqb_spec k' k) as [->|Hk]; simpl; [reflexivity|].
  rewrite IH. destruct (dict_get k d); reflexivity.
Qed.

Lemma NoDup_keys_dict_set k v d : NoDup (keys d) -> NoDup (keys (dict_set k v d)).
Proof.
  intros Hnd. rewrite keys_dict_set. unfold dict_mem.
  destruct (dict_get k d) eqn:E; [assumption|].
  apply NoDup_app; [assumption | constructor; [simpl; tauto | constructor] |].
  intros x Hx [<-|[]]. apply dict_get_keys in Hx. destruct Hx as [w Hw]. congruence.
Qed.

End DictFacts.

(** ** C2: closing the purchases *)

Lemma mark_fold_get (today : date) (l : list Product) (h : dict json) (k : string) :
  dict_get k
    (fold_left (fun h item => dict_set (PyStr.lower (name item)) (today_entry today) h) l h)
  = if existsb (fun item => String.eqb (PyStr.lower (name item)) k) l
    then Some (today_entry today)
    else dict_get k h.
Proof.
  revert h. induction l as [|item l IH]; intros h; simpl; [reflexivity|].
  rewrite IH.
  destruct (existsb _ l); [rewrite orb_true_r; reflexivity|]. rewrite orb_false_r.
  destruct (String.eqb_spec (PyStr.lower (name item)) k) as [->|Hne].
  - apply dict_get_set_same.
  - apply dict_get_set_other. assumption.
Qed.

Lemma mark_fold_NoDup (today : date) (l : list Product) (h : dict json) :
  NoDup (keys h) ->
  NoDup (keys
    (fold_left (fun h item => dict_set (PyStr.lower (name item)) (today_entry today) h) l h)).
Proof.
  revert h. induction l as [|item l IH]; intros h Hnd; simpl; [assumption|].
  apply IH. apply NoDup_keys_dict_set. assumption.
Qed.

(** C2.  For every list and purchase history, after
    [mark_items_as_purchased] the list is empty; for every item that was in
    the list the history has, under the item's lower-cased name, the entry
    whose last purchase date is today's date in ISO form, whatever date was
    there before; entries under other names keep their value; the history
    file holds the new history and the list file holds the empty list. *)
Theorem mark_items_as_purchased_spec (today : date) (self : GroceryAssistant) :
  let self' := snd (mark_items_as_purchased today self) in
  items self' = [] /\
  (forall item, In item (items self) ->
     dict_get (PyStr.lower (name item)) (purchase_history self')
     = Some (JObj [("last_purchase_date", JStr (isoformat today))])) /\
  (forall k, (forall item, In item (items self) -> PyStr.lower (name item) <> k) ->
     dict_get k (purchase_history self') = dict_get k (purchase_history self)) /\
  purchase_history_file (disk self') = Doc (JObj (purchase_history self')) /\
  grocery_list_file (disk self') = Doc (JArr []) /\
  categories_file (disk self') = categories_file (disk self) /\
  categories self' = categories self /\
  fst (mark_items_as_purchased today self) = purchased_msg.
Proof.
  unfold mark_items_as_purchased.
  cbn [fst snd items purchase_history categories disk set_items set_purchase_history
       set_disk save_grocery_list write_grocery_list write_purchase_history
       grocery_list_file purchase_history_file categories_file map].
  change (JObj [(LAST, JStr (isoformat today))]) with (today_entry today).
  change (JObj [("last_purchase_date", JStr (isoformat today))]) with (today_entry today).
  split; [reflexivity|].
  split.
  { intros item Hin. rewrite mark_fold_get.
    replace (existsb _ (items self)) with true; [reflexivity|].
    symmetry. apply existsb_exists. exists item. split; [assumption|].
    apply String.eqb_refl. }
  split.
  { intros k Hk. rewrite mark_fold_get.
    destruct (existsb _ (items self)) eqn:E; [|reflexivity].
    apply existsb_exists in E. destruct E as [item [Hin Heq]].
    apply String.eqb_eq in Heq. exfalso. exact (Hk item Hin Heq). }
  repeat split.
Qed.

(** ** C4: expiry reminders *)

(** A loop that only appends to its accumulator emits, item by item, what
    each item adds. *)
Lemma fold_left_emit {A B} (step : list B -> A -> list B) (emit : A -> list B) :
  (forall acc x, step acc x = acc ++ emit x) ->
  forall l acc, fold_left step l acc = acc ++ flat_map emit l.
Proof.
  intros Hstep. induction l as [|x l IH]; intros acc; simpl.
  - symmetry. apply app_nil_r.
  - rewrite IH, Hstep, <- app_assoc. reflexivity.
Qed.

Lemma expiry_step_emit (today : date) (acc : list string) (item : Product) :
  expiry_step today acc item = acc ++ expiry_emit today item.
Proof.
  unfold expiry_emit, expiry_step.
  destruct (expiry_date item) as [e|]; [|symmetry; apply app_nil_r].
  destruct ((1 <=? days_between e today) && (days_between e today <=? 5));
    [reflexivity | symmetry; apply app_nil_r].
Qed.

Lemma get_expiry_reminders_flat (today : date) (self : GroceryAssistant) :
  get_expiry_reminders today self = flat_map (expiry_emit today) (items self).
Proof.
  unfold get_expiry_reminders.
  rewrite (fold_left_emit _ _ (expiry_step_emit today)). reflexivity.
Qed.

(** C4.  For every list and every item in it, the reminders are those of
    the items before it, then what the item itself emits, then those of the
    items after it.  An item without expiry date emits nothing; an item
    with expiry date [e] emits its one reminder iff
    [1 <= (e - today).days <= 5], so nothing when it expires today, has
    expired, or expires in 6 days or more. *)
Theorem get_expiry_reminders_window
    (today : date) (self : GroceryAssistant) (before after : list Product) (item : Product) :
  items self = before ++ item :: after ->
  exists emitted : list string,
    get_expiry_reminders today self =
      get_expiry_reminders today (set_items before self) ++ emitted ++
      get_expiry_reminders today (set_items after self) /\
    match expiry_date item with
    | None => emitted = []
    | Some e =>
        let days := days_between e today in
        (emitted <> [] <-> 1 <= days <= 5) /\
        (1 <= days <= 5 -> emitted = [reminder_msg item days]) /\
        (days <= 0 -> emitted = []) /\
        (6 <= days -> emitted = [])
    end.
Proof.
  intros Hitems. exists (expiry_emit today item). split.
  - rewrite !get_expiry_reminders_flat, Hitems. cbn [items set_items].
    rewrite flat_map_app. reflexivity.
  - unfold expiry_emit, expiry_step.
    destruct (expiry_date item) as [e|]; [|reflexivity].
    cbn zeta.
    destruct ((1 <=? days_between e today) && (days_between e today <=? 5)) eqn:W.
    + apply andb_true_iff in W. destruct W as [W1 W2].
      apply Z.leb_le in W1, W2.
      split; [split; [lia | discriminate]|].
      split; [reflexivity|]. split; intros; lia.
    + assert (~ (1 <= days_between e today <= 5)) as Hout.
      { intros [H1 H2]. apply Z.leb_le in H1, H2. rewrite H1, H2 in W. discriminate. }
      split; [split; [congruence | tauto]|].
      split; [tauto|]. split; reflexivity.
Qed.

(** ** C6: loading from missing or malformed files *)

(** C6.  On a missing file each of the three loads returns the empty
    collection.  On content that is not JSON, [load_purchase_history] and
    [load_grocery_list] return the empty collection, and [load_categories],
    which catches [FileNotFoundError] alone, raises [JSONDecodeError] to its
    caller.  JSON of the wrong shape (an array for the history, a number
    for the list) also raises from the two other loads. *)
Theorem load_on_missing_or_malformed (g h c : file) (self : GroceryAssistant) :
  load_categories (mkFiles g h Missing) = Ok (JObj []) /\
  load_purchase_history (mkFiles g Missing c) = Ok ([], mkFiles g Missing c) /\
  load_grocery_list (set_disk (mkFiles Missing h c) self)
    = Ok (set_items [] (set_disk (mkFiles Missing h c) self)) /\
  load_purchase_history (mkFiles g Corrupt c) = Ok ([], mkFiles g Corrupt c) /\
  load_grocery_list (set_disk (mkFiles Corrupt h c) self)
    = Ok (set_items [] (set_disk (mkFiles Corrupt h c) self)) /\
  load_categories (mkFiles g h Corrupt) = Raise JSONDecodeError /\
  load_purchase_history (mkFiles g (Doc (JArr [])) c) = Raise AttributeError /\
  load_grocery_list (set_disk (mkFiles (Doc (JNum "5")) h c) self) = Raise TypeError.
Proof. repeat split. Qed.

(** ** Strings *)

Lemma append_assoc (a b c : string) : ((a ++ b) ++ c = a ++ (b ++ c))%string.
Proof. induction a as [|x a IH]; simpl; [reflexivity | rewrite IH; reflexivity]. Qed.

Lemma append_nil_r (a : string) : (a ++ "")%string = a.
Proof. induction a as [|x a IH]; simpl; [reflexivity | rewrite IH; reflexivity]. Qed.

Lemma length_append (a b : string) :
  String.length (a ++ b) = (String.length a + String.length b)%nat.
Proof. induction a as [|x a IH]; simpl; [reflexivity | rewrite IH; reflexivity]. Qed.

Lemma prefix_spec (sub s : string) :
  String.prefix sub s = true <-> exists post, s = (sub ++ post)%string.
Proof.
  revert sub. induction s as [|c s IH]; intros [|x sub]; simpl.
  - split; [exists ""; reflexivity | reflexivity].
  - split; [discriminate | intros [post H]; discriminate].
  - split; [exists (String c s); reflexivity | reflexivity].
  - destruct (ascii_dec x c) as [->|Hne].
    + rewrite IH. split; intros [post H]; exists post; congruence.
    + split; [discriminate | intros [post H]; congruence].
Qed.

Lemma contains_spec (sub s : string) :
  PyStr.contains sub s = true <-> exists pre post, s = (pre ++ sub ++ post)%string.
Proof.
  induction s as [|c s IH]; cbn [PyStr.contains].
  - rewrite orb_false_r, prefix_spec. split.
    + intros [post H]. exists "", post. exact H.
    + intros [[|x pre] [post H]]; [exists post; exact H | discriminate].
  - rewrite orb_true_iff, prefix_spec, IH. split.
    + intros [[post H] | [pre [post H]]].
      * exists "", post. exact H.
      * exists (String c pre), post. simpl. congruence.
    + intros [[|x pre] [post H]].
      * left. exists post. exact H.
      * right. exists pre, post. simpl in H. congruence.
Qed.

(** A message that has [a ++ b] has [b]. *)
Lemma contains_tail (a b s : string) :
  PyStr.contains (a ++ b) s = true -> PyStr.contains b s = true.
Proof.
  rewrite !contains_spec. intros [pre [post H]].
  exists (pre ++ a)%string, post. rewrite H, !append_assoc. reflexivity.
Qed.

Lemma lower_append (a b : string) :
  PyStr.lower (a ++ b) = (PyStr.lower a ++ PyStr.lower b)%string.
Proof. induction a as [|x a IH]; simpl; [reflexivity | rewrite IH; reflexivity]. Qed.

(** Lower-casing the text keeps every occurrence of a keyword, lower-cased. *)
Lemma contains_lower (sub s : string) :
  PyStr.contains sub s = true -> PyStr.contains (PyStr.lower sub) (PyStr.lower s) = true.
Proof.
  rewrite !contains_spec. intros [pre [post H]].
  exists (PyStr.lower pre), (PyStr.lower post). rewrite H, !lower_append. reflexivity.
Qed.

(** ** C7 and C10: the dispatch of get_reply *)

(** The [if]/[elif] chain of [get_reply] is the first-match rule over the
    priority table, on the lower-cased message. *)
Lemma get_reply_dispatch (today : date) (message : string) (a : GroceryAssistant) :
  get_reply today message a =
  as_reply (run_handler (first_match priority (PyStr.lower message))
                        today (PyStr.lower message) a).
Proof.
  unfold get_reply, as_reply, priority, first_match, existsb.
  rewrite !orb_false_r.
  repeat match goal with
         | |- context [if ?c then _ else _] => destruct c
         end; reflexivity.
Qed.

Lemma first_match_none (table : list (list string * handler)) (message : string) :
  (forall keywords h kw, In (keywords, h) table -> In kw keywords ->
     PyStr.contains kw message = false) ->
  first_match table message = HFallback.
Proof.
  induction table as [|[keywords h] table IH]; intros Hnone; simpl; [reflexivity|].
  destruct (existsb _ keywords) eqn:E.
  - apply existsb_exists in E. destruct E as [kw [Hkw Hc]].
    rewrite (Hnone keywords h kw (or_introl eq_refl) Hkw) in Hc. discriminate.
  - apply IH. intros ks h' kw Hin. apply (Hnone ks h' kw). right. assumption.
Qed.

(** C7.  For every message, [get_reply] answers with the handler that the
    first-match rule selects on the lower-cased message from the priority
    table add, remove, expiring, suggestions, list, clear-list, purchase,
    greeting; when no keyword of the table occurs the reply is
    "Sorry, I don't understand." and nothing changes; a message that has
    "add", in any case, goes to the add handler, so does one that has both
    "add" and "list". *)
Theorem get_reply_first_match (today : date) (message : string) (a : GroceryAssistant) :
  get_reply today message a =
    as_reply (run_handler (first_match priority (PyStr.lower message))
                          today (PyStr.lower message) a) /\
  ((forall keywords h kw, In (keywords, h) priority -> In kw keywords ->
      PyStr.contains kw (PyStr.lower message) = false) ->
   first_match priority (PyStr.lower message) = HFallback /\
   get_reply today message a = Ok (mkReply "Sorry, I don't understand." false, a)) /\
  (PyStr.contains "add" (PyStr.lower message) = true ->
   first_match priority (PyStr.lower message) = HAdd /\
   get_reply today message a = as_reply (_handle_add (PyStr.lower message) a)) /\
  (PyStr.contains "add" message = true -> PyStr.contains "list" message = true ->
   first_match priority (PyStr.lower message) = HAdd /\
   get_reply today message a = as_reply (_handle_add (PyStr.lower message) a)).
Proof.
  assert (Hadd : PyStr.contains "add" (PyStr.lower message) = true ->
                 first_match priority (PyStr.lower message) = HAdd /\
                 get_reply today message a = as_reply (_handle_add (PyStr.lower message) a)).
  { intros Hadd.
    assert (H : first_match priority (PyStr.lower message) = HAdd).
    { unfold priority, first_match, existsb. rewrite Hadd. reflexivity. }
    split; [assumption|]. rewrite get_reply_dispatch, H. reflexivity. }
  split; [apply get_reply_dispatch|]. split; [|split; [exact Hadd|]].
  - intros Hnone. apply first_match_none in Hnone.
    split; [assumption|]. rewrite get_reply_dispatch, Hnone. reflexivity.
  - intros Hraw _. apply Hadd. apply (contains_lower "add"). assumption.
Qed.

Example init_without_files : init no_files = Ok fresh_assistant.
Proof. reflexivity. Qed.

(** Counterexample to C10 as stated: "add clear list" has "clear list" and
    is dispatched to the add handler, not to the list display; it stores an
    item named "list" with unit "clear". *)
Lemma clear_list_after_add_is_an_add :
  PyStr.contains "clear list" (PyStr.lower "add clear list") = true /\
  first_match priority (PyStr.lower "add clear list") = HAdd /\
  get_reply a_monday "add clear list" fresh_assistant =
    Ok (mkReply "I've added list to your list." true,
        snd (add_item_to_list (Product_kw "list" (Some "clear") None) fresh_assistant)) /\
  get_reply a_monday "add clear list" fresh_assistant <>
    as_reply (Ok (_handle_list (PyStr.lower "add clear list") fresh_assistant)).
Proof.
  split; [reflexivity|]. split; [reflexivity|]. split; [reflexivity|].
  vm_compute. discriminate.
Qed.

(** A message with "clear list" can also empty the list, through the remove
    handler. *)
Example remove_clear_list_empties :
  let a := set_items [Product_defaults "Clear List"] fresh_assistant in
  exists a', get_reply a_monday "remove clear list" a
             = Ok (mkReply "I've removed clear list from your list." true, a') /\
             items a' = [].
Proof. eexists. split; [vm_compute; reflexivity | reflexivity]. Qed.

(** C10, amended.  For every message the clear-list branch of [get_reply]
    is never taken: the handler run is never the clear-list one.  A message
    whose lower-cased text has "clear list" has "list" too, and is
    dispatched by the list check or an earlier one, so to the add, remove,
    expiring, suggestions or list-display handler; when none of the four
    earlier keywords occurs it is the list display, which leaves the list,
    the history and the files as they were. *)
Theorem clear_list_branch_unreachable
    (today : date) (message : string) (a : GroceryAssistant) :
  let msg := PyStr.lower message in
  first_match priority msg <> HClear /\
  get_reply today message a = as_reply (run_handler (first_match priority msg) today msg a) /\
  (PyStr.contains "clear list" msg = true ->
   PyStr.contains "list" msg = true /\
   In (first_match priority msg) [HAdd; HRemove; HExpiring; HSuggestions; HList] /\
   (PyStr.contains "add" msg = false -> PyStr.contains "remove" msg = false ->
    PyStr.contains "expiring" msg = false -> PyStr.contains "suggestions" msg = false ->
    first_match priority msg = HList /\
    get_reply today message a = Ok (mkReply (_get_list a) false, a))).
Proof.
  intros msg.
  assert (Hlist : PyStr.contains "clear list" msg = true -> PyStr.contains "list" msg = true).
  { apply (contains_tail "clear " "list"). }
  split; [|split; [apply get_reply_dispatch|]].
  - unfold priority, first_match, existsb. rewrite !orb_false_r.
    destruct (PyStr.contains "add" msg); [discriminate|].
    destruct (PyStr.contains "remove" msg); [discriminate|].
    destruct (PyStr.contains "expiring" msg); [discriminate|].
    destruct (PyStr.contains "suggestions" msg); [discriminate|].
    destruct (PyStr.contains "list" msg) eqn:L; [discriminate|].
    destruct (PyStr.contains "clear list" msg) eqn:C; [specialize (Hlist eq_refl); discriminate|].
    rewrite orb_false_l.
    destruct (PyStr.contains "show list" msg); [discriminate|].
    destruct (PyStr.contains "purchase" msg); [discriminate|].
    destruct (_ || _); discriminate.
  - intros Hclear. specialize (Hlist Hclear).
    split; [assumption|]. split.
    + unfold priority, first_match, existsb. rewrite Hlist, !orb_false_r.
      destruct (PyStr.contains "add" msg); [simpl; tauto|].
      destruct (PyStr.contains "remove" msg); [simpl; tauto|].
      destruct (PyStr.contains "expiring" msg); [simpl; tauto|].
      destruct (PyStr.contains "suggestions" msg); simpl; tauto.
    + intros H1 H2 H3 H4.
      assert (H : first_match priority msg = HList).
      { unfold priority, first_match, existsb. rewrite H1, H2, H3, H4, Hlist. reflexivity. }
      split; [assumption|]. rewrite get_reply_dispatch. fold msg. rewrite H. reflexivity.
Qed.

Lemma clear_list_branch_unreachable_witness :
  first_match priority (PyStr.lower "Clear List") = HList /\
  get_reply a_monday "Clear List" (set_items [Product_defaults "Milk"] fresh_assistant)
  = Ok (mkReply (_get_list (set_items [Product_defaults "Milk"] fresh_assistant)) false,
        set_items [Product_defaults "Milk"] fresh_assistant).
Proof.
  apply (clear_list_branch_unreachable a_monday "Clear List"
           (set_items [Product_defaults "Milk"] fresh_assistant)); reflexivity.
Defined.

(** ** The matcher: groups a match is sure to set *)

Module ReFacts.
Import Re.

Lemma extends_refl g : extends g g.
Proof. intros n H; exact H. Qed.

Lemma extends_trans g1 g2 g3 : extends g1 g2 -> extends g2 g3 -> extends g1 g3.
Proof. intros H12 H23 n H. auto. Qed.

Lemma extends_set n v (g : groups) : extends g (dict_set n v g).
Proof.
  intros m H. unfold dict_mem in *.
  destruct (String.eqb_spec n m) as [->|Hne].
  - rewrite dict_get_set_same. reflexivity.
  - rewrite dict_get_set_other by assumption. exact H.
Qed.

Lemma plus_greedy_through {R} (k : string -> option R) p s x :
  plus_greedy k p s = Some x -> exists s', k s' = Some x.
Proof.
  induction s as [|c s IH]; simpl; [discriminate|].
  destruct (p c); [|discriminate].
  destruct (plus_greedy k p s); intros H; [apply IH; assumption | eauto].
Qed.

Lemma plus_lazy_through {R} (k : string -> option R) p s x :
  plus_lazy k p s = Some x -> exists s', k s' = Some x.
Proof.
  induction s as [|c s IH]; simpl; [discriminate|].
  destruct (p c); [|discriminate].
  destruct (k s) eqn:E; intros H; [exists s; congruence | auto].
Qed.

(** A successful match has called its continuation, with the groups it
    was given and possibly more. *)
Lemma rmatch_through {R} (r : regex) :
  forall s g (k : string -> groups -> option R) x,
    rmatch r s g k = Some x ->
    exists s' g', k s' g' = Some x /\ extends g g'.
Proof.
  induction r as [|p|r1 IH1 r2 IH2|r1 IH1 r2 IH2|r1 IH1|p|p|n r1 IH1|];
    intros s g k x; simpl.
  - intros H. exists s, g. split; [assumption | apply extends_refl].
  - destruct s as [|c s]; [discriminate|]. destruct (p c); [|discriminate].
    intros H. exists s, g. split; [assumption | apply extends_refl].
  - intros H. apply IH1 in H. destruct H as [s1 [g1 [H E1]]].
    apply IH2 in H. destruct H as [s2 [g2 [H E2]]].
    exists s2, g2. split; [assumption | eapply extends_trans; eassumption].
  - destruct (rmatch r1 s g k) eqn:E; intros H.
    + apply (IH1 s g k). congruence.
    + apply (IH2 s g k). assumption.
  - destruct (rmatch r1 s g k) eqn:E; intros H.
    + apply (IH1 s g k). congruence.
    + exists s, g. split; [assumption | apply extends_refl].
  - intros H. apply plus_greedy_through in H. destruct H as [s' H].
    exists s', g. split; [assumption | apply extends_refl].
  - intros H. apply plus_lazy_through in H. destruct H as [s' H].
    exists s', g. split; [assumption | apply extends_refl].
  - intros H. apply IH1 in H. destruct H as [s1 [g1 [H E1]]].
    exists s1, (dict_set n (consumed s s1) g1). split; [assumption|].
    eapply extends_trans; [eassumption | apply extends_set].
  - destruct s as [|c [|c' s]]; try discriminate.
    + intros H. exists "", g. split; [assumption | apply extends_refl].
    + destruct (Ascii.eqb c "010"); [|discriminate].
      intros H. eexists _, g. split; [eassumption | apply extends_refl].
Qed.

Lemma rmatch_sets {R} (n : string) (r : regex) :
  always_sets n r = true ->
  forall s g (k : string -> groups -> option R) x,
    rmatch r s g k = Some x ->
    exists s' g', k s' g' = Some x /\ dict_mem n g' = true.
Proof.
  induction r as [|p|r1 IH1 r2 IH2|r1 IH1 r2 IH2|r1 IH1|p|p|m r1 IH1|];
    simpl; try discriminate; intros Hs s g k x H.
  - apply orb_true_iff in Hs. destruct Hs as [Hs|Hs].
    + apply (IH1 Hs) in H. destruct H as [s1 [g1 [H M]]].
      apply rmatch_through in H. destruct H as [s2 [g2 [H E]]].
      exists s2, g2. split; [assumption | apply E; assumption].
    + apply rmatch_through in H. destruct H as [s1 [g1 [H _]]].
      apply (IH2 Hs) in H. assumption.
  - apply andb_true_iff in Hs. destruct Hs as [Hs1 Hs2].
    destruct (rmatch r1 s g k) eqn:E.
    + apply (IH1 Hs1 s g k). congruence.
    + apply (IH2 Hs2 s g k). assumption.
  - destruct (String.eqb_spec m n) as [->|Hne].
    + apply rmatch_through in H. destruct H as [s1 [g1 [H _]]].
      exists s1, (dict_set n (consumed s s1) g1). split; [assumption|].
      unfold dict_mem. rewrite dict_get_set_same. reflexivity.
    + simpl in Hs. apply (IH1 Hs) in H. destruct H as [s1 [g1 [H M]]].
      exists s1, (dict_set m (consumed s s1) g1). split; [assumption|].
      apply extends_set. assumption.
Qed.

Lemma search_sets (n : string) (r : regex) (s : string) (g : groups) :
  always_sets n r = true -> search r s = Some g -> exists v, group n g = Some v.
Proof.
  intros Hs. induction s as [|c s IH]; simpl; unfold rmatch_at.
  - destruct (rmatch r "" [] _) as [[g0 rest]|] eqn:E; [|discriminate].
    intros H. inversion H; subst g0. apply (rmatch_sets n r Hs) in E.
    destruct E as [s' [g' [E M]]]. inversion E; subst.
    unfold dict_mem in M. unfold group. destruct (dict_get n g); [eauto | discriminate].
  - destruct (rmatch r (String c s) [] _) as [[g0 rest]|] eqn:E; [|exact IH].
    intros H. inversion H; subst g0. apply (rmatch_sets n r Hs) in E.
    destruct E as [s' [g' [E M]]]. inversion E; subst.
    unfold dict_mem in M. unfold group. destruct (dict_get n g); [eauto | discriminate].
Qed.

End ReFacts.

(** ** The matcher: where a match goes through the text *)

Module ReShape.
Import Re.














End ReShape.

(** ** C9: the unit of a stored item *)





(** Phrases with single blanks: the word after add, or after the quantity,
    is stored as the unit, a number included; with two blanks in a row the
    unit is "pcs". *)
Example units_the_chat_stores :
  map (fun message =>
         match _handle_add message fresh_assistant with
         | Ok (_, a') => map (fun p => (name p, unit p)) (items a')
         | Raise _ => []
         end)
      ["add 2 apples"; "add fresh milk"; "add milk to dairy"; "add 2 kg of rice";
       "add milk"; "add  milk"; "add 2  apples"]
  = [[("apples", Some "2")]; [("milk", Some "fresh")]; [("to dairy", Some "milk")];
     [("rice", Some "kg")]; []; [("milk", Some "pcs")]; [("apples", Some "pcs")]].
Proof. vm_compute. reflexivity. Qed.

(** ** Dates *)

Lemma date_gt_spec (a b : date) :
  date_gt a b = true <->
  year a > year b \/
  (year a = year b /\ (month a > month b \/ (month a = month b /\ day a > day b))).
Proof.
  unfold date_gt.
  rewrite !orb_true_iff, !andb_true_iff, !orb_true_iff, !andb_true_iff.
  rewrite !Z.gtb_gt, !Z.eqb_eq. reflexivity.
Qed.

Lemma date_gt_false (a b : date) :
  date_gt a b = false <-> ~ (year a > year b \/
  (year a = year b /\ (month a > month b \/ (month a = month b /\ day a > day b)))).
Proof. rewrite <- date_gt_spec. symmetry. apply not_true_iff_false. Qed.

Lemma date_gt_irrefl (a : date) : date_gt a a = false.
Proof. apply date_gt_false. lia. Qed.

(** Nothing later than [b] is later than a date later than [b]. *)
Lemma date_gt_raise (a b c : date) :
  date_gt a b = true -> date_gt c b = false -> date_gt c a = false.
Proof. rewrite date_gt_spec, !date_gt_false. lia. Qed.

(** ** Loops that may raise *)

Lemma foldM_invariant {A S} (body : S -> A -> result S) (P : A -> Prop)
    (Inv : list A -> S -> Prop) :
  (forall done s x, P x -> Inv done s -> exists s', body s x = Ok s' /\ Inv (done ++ [x]) s') ->
  forall l done s, Forall P l -> Inv done s ->
    exists s', foldM body l s = Ok s' /\ Inv (done ++ l) s'.
Proof.
  intros Hstep. induction l as [|x l IH]; intros done s HP HI; simpl.
  - exists s. rewrite app_nil_r. auto.
  - inversion HP as [|? ? Px Pl]; subst.
    destruct (Hstep done s x Px HI) as [s1 [E1 I1]].
    rewrite E1. simpl.
    destruct (IH (done ++ [x]) s1 Pl I1) as [s2 [E2 I2]].
    exists s2. rewrite <- app_assoc in I2. auto.
Qed.

(** ** C5: the normalization pass of load_purchase_history *)

Lemma entry_date_inv (v : json) (d : date) :
  entry_date v = Ok d ->
  exists fields s, v = JObj fields /\ dict_get LAST fields = Some s /\ strptime s = Ok d.
Proof.
  unfold entry_date, subscript. destruct v as [| | | | |fields]; try discriminate.
  destruct (dict_get LAST fields) as [s|] eqn:E; [|discriminate].
  simpl. intros H. exists fields, s. auto.
Qed.

Lemma normalized_upto_nil : normalized_upto [] [].
Proof.
  constructor; simpl; try tauto; try discriminate. constructor.
Qed.

Lemma subscript_set_last (fields : dict json) (s : json) :
  subscript (JObj (dict_set LAST s fields)) LAST = Ok s.
Proof. unfold subscript. rewrite dict_get_set_same. reflexivity. Qed.

Lemma normalize_step_upto (done norm : dict json) (kv : string * json) :
  (exists d, entry_date (snd kv) = Ok d) ->
  normalized_upto done norm ->
  exists norm', normalize_step norm kv = Ok norm' /\ normalized_upto (done ++ [kv]) norm'.
Proof.
  destruct kv as [k value]. intros [dn Hdn] [Hcov Hlat Hnd]. simpl in Hdn.
  unfold normalize_step.
  destruct (entry_date_inv _ _ Hdn) as [fn [sn [-> [Gsn Psn]]]].
  destruct (dict_get (PyStr.lower k) norm) as [existing|] eqn:G.
  - destruct (Hlat _ _ G) as [de [Hde [[kw [vw [Hw1 [Hw2 Hw3]]]] Hmax]]].
    destruct (entry_date_inv _ _ Hde) as [fe [se [-> [Gse Pse]]]].
    unfold subscript at 1 2. rewrite Gse, Gsn. cbn [bind]. rewrite Pse, Psn. cbn [bind].
    destruct (date_gt dn de) eqn:GT; cbn [json_setitem bind].
    + eexists. split; [reflexivity|]. constructor.
      * intros k0 v0 Hin.
        destruct (String.eqb_spec (PyStr.lower k) (PyStr.lower k0)) as [<-|Hne].
        -- rewrite dict_get_set_same. eauto.
        -- rewrite dict_get_set_other by assumption.
           apply in_app_or in Hin. destruct Hin as [Hin|[Heq|[]]]; [eauto|].
           inversion Heq; subst. contradiction.
      * intros n v Hget.
        destruct (String.eqb_spec (PyStr.lower k) n) as [<-|Hne].
        -- rewrite dict_get_set_same in Hget. inversion Hget; subst v; clear Hget.
           exists dn. split; [|split].
           ++ unfold entry_date. rewrite subscript_set_last. exact Psn.
           ++ exists k, (JObj fn). split; [apply in_or_app; right; left; reflexivity|].
              split; [reflexivity|]. rewrite subscript_set_last.
              unfold subscript. rewrite Gsn. reflexivity.
           ++ intros k0 v0 d0 Hin Hk Hd.
              apply in_app_or in Hin. destruct Hin as [Hin|[Heq|[]]].
              ** apply (date_gt_raise dn de d0 GT). eapply Hmax; eassumption.
              ** inversion Heq; subst. rewrite Hdn in Hd. inversion Hd; subst.
                 apply date_gt_irrefl.
        -- rewrite dict_get_set_other in Hget by assumption.
           destruct (Hlat _ _ Hget) as [d [Hd [[k1 [v1 [Hi1 [Hl1 Hs1]]]] Hm]]].
           exists d. split; [assumption|]. split.
           ++ exists k1, v1. split; [apply in_or_app; left; assumption | auto].
           ++ intros k0 v0 d0 Hin Hk Hd0.
              apply in_app_or in Hin. destruct Hin as [Hin|[Heq|[]]]; [eauto|].
              inversion Heq; subst. contradiction.
      * apply NoDup_keys_dict_set. assumption.
    + eexists. split; [reflexivity|]. constructor.
      * intros k0 v0 Hin.
        apply in_app_or in Hin. destruct Hin as [Hin|[Heq|[]]]; [eauto|].
        inversion Heq; subst. eauto.
      * intros n v Hget.
        destruct (Hlat _ _ Hget) as [d [Hd [[k1 [v1 [Hi1 [Hl1 Hs1]]]] Hm]]].
        exists d. split; [assumption|]. split.
        -- exists k1, v1. split; [apply in_or_app; left; assumption | auto].
        -- intros k0 v0 d0 Hin Hk Hd0.
           apply in_app_or in Hin. destruct Hin as [Hin|[Heq|[]]]; [eauto|].
           inversion Heq; subst k0 v0. rewrite <- Hk, G in Hget. inversion Hget; subst v.
           rewrite Hde in Hd. inversion Hd; subst d.
           rewrite Hdn in Hd0. inversion Hd0; subst d0. exact GT.
      * assumption.
  - eexists. split; [reflexivity|]. constructor.
    + intros k0 v0 Hin.
      destruct (String.eqb_spec (PyStr.lower k) (PyStr.lower k0)) as [<-|Hne].
      * rewrite dict_get_set_same. eauto.
      * rewrite dict_get_set_other by assumption.
        apply in_app_or in Hin. destruct Hin as [Hin|[Heq|[]]]; [eauto|].
        inversion Heq; subst. contradiction.
    + intros n v Hget.
      destruct (String.eqb_spec (PyStr.lower k) n) as [<-|Hne].
      * rewrite dict_get_set_same in Hget. inversion Hget; subst v; clear Hget.
        exists dn. split; [assumption|]. split.
        -- exists k, (JObj fn). split; [apply in_or_app; right; left; reflexivity | auto].
        -- intros k0 v0 d0 Hin Hk Hd.
           apply in_app_or in Hin. destruct Hin as [Hin|[Heq|[]]].
           ++ destruct (Hcov _ _ Hin) as [v Hv]. rewrite Hk in Hv. congruence.
           ++ inversion Heq; subst. rewrite Hdn in Hd. inversion Hd; subst.
              apply date_gt_irrefl.
      * rewrite dict_get_set_other in Hget by assumption.
        destruct (Hlat _ _ Hget) as [d [Hd [[k1 [v1 [Hi1 [Hl1 Hs1]]]] Hm]]].
        exists d. split; [assumption|]. split.
        -- exists k1, v1. split; [apply in_or_app; left; assumption | auto].
        -- intros k0 v0 d0 Hin Hk Hd0.
           apply in_app_or in Hin. destruct Hin as [Hin|[Heq|[]]]; [eauto|].
           inversion Heq; subst. contradiction.
    + apply NoDup_keys_dict_set. assumption.
Qed.

Lemma lower_char_idempotent (c : ascii) :
  PyStr.lower_char (PyStr.lower_char c) = PyStr.lower_char c.
Proof. destruct c as [[] [] [] [] [] [] [] []]; reflexivity. Qed.

Lemma lower_idempotent (s : string) : PyStr.lower (PyStr.lower s) = PyStr.lower s.
Proof.
  induction s as [|c s IH]; simpl; [reflexivity|].
  rewrite lower_char_idempotent, IH. reflexivity.
Qed.

Lemma normal_history_set (h : dict json) (k : string) (v : json) :
  normal_history h -> normal_history (dict_set (PyStr.lower k) v h).
Proof.
  intros [Hnd Hlow]. split; [apply NoDup_keys_dict_set; assumption|].
  intros n. rewrite keys_dict_set. destruct (dict_mem _ h); [apply Hlow|].
  rewrite in_app_iff. intros [H|[<-|[]]]; [auto | apply lower_idempotent].
Qed.

Lemma normalize_step_cases (norm norm' : dict json) (k : string) (v : json) :
  normalize_step norm (k, v) = Ok norm' ->
  norm' = norm \/ exists e, norm' = dict_set (PyStr.lower k) e norm.
Proof.
  unfold normalize_step.
  destruct (dict_get (PyStr.lower k) norm) as [existing|].
  - destruct (subscript existing LAST) as [e|]; [|discriminate]. cbn [bind].
    destruct (strptime e) as [de|]; [|discriminate]. cbn [bind].
    destruct (subscript v LAST) as [n|]; [|discriminate]. cbn [bind].
    destruct (strptime n) as [dn|]; [|discriminate]. cbn [bind].
    destruct (date_gt dn de).
    + destruct (json_setitem existing LAST n) as [entry|]; [|discriminate]. cbn [bind].
      intros H. inversion H. eauto.
    + intros H. inversion H. auto.
  - intros H. inversion H. eauto.
Qed.

Lemma foldM_preserves {A S} (body : S -> A -> result S) (Inv : S -> Prop) :
  (forall s x s', Inv s -> body s x = Ok s' -> Inv s') ->
  forall l s s', Inv s -> foldM body l s = Ok s' -> Inv s'.
Proof.
  intros Hstep. induction l as [|x l IH]; simpl; intros s s' HI H.
  - inversion H; subst. assumption.
  - destruct (body s x) as [s1|] eqn:E; [|discriminate]. simpl in H.
    apply (IH s1); [eapply Hstep; eassumption | assumption].
Qed.

(** Whatever the file holds, a history that [load_purchase_history] returns
    has one entry per key and lower-cased keys. *)
Lemma load_purchase_history_normal (fs fs' : files) (h : dict json) :
  load_purchase_history fs = Ok (h, fs') -> normal_history h.
Proof.
  assert (Hnil : normal_history []) by (split; [constructor | intros k []]).
  unfold load_purchase_history.
  destruct (purchase_history_file fs) as [| |j]; cbn [json_load bind except_missing_or_malformed].
  - intros H. inversion H. assumption.
  - intros H. inversion H. assumption.
  - destruct j as [| | | | |raw]; try discriminate. cbn [json_items bind].
    destruct (foldM normalize_step raw []) as [norm|e] eqn:E; cbn [bind].
    + intros H. inversion H; subst.
      apply (foldM_preserves normalize_step normal_history) with (l := raw) (s := []);
        [|assumption|assumption].
      intros s [k v] s' Hs Hstep. apply normalize_step_cases in Hstep.
      destruct Hstep as [->|[e ->]]; [assumption | apply normal_history_set; assumption].
    + destruct e; try discriminate; intros H; inversion H; assumption.
Qed.

Lemma foldM_raises {A S} (body : S -> A -> result S) (P : exn -> Prop) :
  (forall s x e, body s x = Raise e -> P e) ->
  forall l s e, foldM body l s = Raise e -> P e.
Proof.
  intros Hstep. induction l as [|x l IH]; simpl; intros s e H; [discriminate|].
  destruct (body s x) as [s1|e1] eqn:E; simpl in H.
  - eapply IH. eassumption.
  - inversion H; subst. eapply Hstep. eassumption.
Qed.

Lemma subscript_raises v k e : subscript v k = Raise e -> lookup_error e.
Proof.
  unfold subscript, lookup_error. destruct v; try (intros H; inversion H; tauto).
  destruct (dict_get k d); intros H; inversion H; tauto.
Qed.

Lemma strptime_raises v e : strptime v = Raise e -> lookup_error e.
Proof.
  unfold strptime, strptime_ymd, lookup_error.
  destruct v; try (intros H; inversion H; tauto).
  destruct (Re.rmatch_at ymd_pattern s) as [[g [|c rest]]|];
    try (intros H; inversion H; tauto).
  destruct (Re.group "Y" g), (Re.group "m" g), (Re.group "d" g);
    try (intros H; inversion H; tauto).
  destruct (_ && _); intros H; inversion H; tauto.
Qed.

Lemma normalize_step_raises norm kv e : normalize_step norm kv = Raise e -> lookup_error e.
Proof.
  destruct kv as [k v]. unfold normalize_step.
  destruct (dict_get (PyStr.lower k) norm) as [existing|]; [|discriminate].
  destruct (subscript existing LAST) as [x|] eqn:E1; cbn [bind];
    [|intros H; inversion H; subst; eapply subscript_raises; eassumption].
  destruct (strptime x) as [de|] eqn:E2; cbn [bind];
    [|intros H; inversion H; subst; eapply strptime_raises; eassumption].
  destruct (subscript v LAST) as [n|] eqn:E3; cbn [bind];
    [|intros H; inversion H; subst; eapply subscript_raises; eassumption].
  destruct (strptime n) as [dn|] eqn:E4; cbn [bind];
    [|intros H; inversion H; subst; eapply strptime_raises; eassumption].
  destruct (date_gt dn de); [|discriminate].
  destruct existing; cbn [json_setitem bind]; try discriminate.
  all: intros H; inversion H; unfold lookup_error; tauto.
Qed.

(** A JSON object that loads is written back as loaded. *)
Lemma load_purchase_history_written (fs fs' : files) (h raw : dict json) :
  purchase_history_file fs = Doc (JObj raw) ->
  load_purchase_history fs = Ok (h, fs') ->
  fs' = write_purchase_history (JObj h) fs.
Proof.
  intros Hfile. unfold load_purchase_history. rewrite Hfile.
  cbn [json_load json_items bind].
  destruct (foldM normalize_step raw []) as [norm|e] eqn:E; cbn [bind].
  - intros H. inversion H. reflexivity.
  - apply (foldM_raises normalize_step lookup_error normalize_step_raises) in E.
    destruct E as [->|[->| ->]]; discriminate.
Qed.

(** C5.  Whatever the history file holds, a map that
    [load_purchase_history] returns has only lower-cased keys and one entry
    per lower-cased name, and when the file held a JSON object the map has
    been written back to the file.  For every file that holds a JSON object
    whose entries carry a readable last purchase date the load does return:
    the keys of the map are the lower-cased raw keys, and the date under a
    key is the date of one of the raw entries that normalize to the key,
    with no such raw entry later than it. *)
Theorem load_purchase_history_normalizes (fs : files) :
  (forall h fs', load_purchase_history fs = Ok (h, fs') ->
     NoDup (map PyStr.lower (keys h)) /\
     (forall k, In k (keys h) -> PyStr.lower k = k) /\
     (forall raw, purchase_history_file fs = Doc (JObj raw) ->
                  fs' = write_purchase_history (JObj h) fs)) /\
  (forall raw, purchase_history_file fs = Doc (JObj raw) -> dated raw = true ->
   exists norm : dict json,
    load_purchase_history fs = Ok (norm, write_purchase_history (JObj norm) fs) /\
    (forall n, In n (keys norm) <-> exists k0, In k0 (keys raw) /\ n = PyStr.lower k0) /\
    (forall n v, dict_get n norm = Some v ->
       exists d, entry_date v = Ok d /\
         (exists k0 v0, In (k0, v0) raw /\ PyStr.lower k0 = n /\ entry_date v0 = Ok d /\
                        subscript v0 "last_purchase_date" = subscript v "last_purchase_date") /\
         (forall k0 v0 d0, In (k0, v0) raw -> PyStr.lower k0 = n ->
                           entry_date v0 = Ok d0 -> date_gt d0 d = false))).
Proof.
  split.
  { intros h fs' Hload.
    destruct (load_purchase_history_normal fs fs' h Hload) as [Hnd Hlow].
    split; [rewrite (map_ext_in _ (fun n => n) _ Hlow), map_id; exact Hnd|].
    split; [exact Hlow|].
    intros raw Hfile. eapply load_purchase_history_written; eassumption. }
  intros raw Hfile Hdated.
  assert (Hall : Forall (fun kv : string * json => exists d, entry_date (snd kv) = Ok d) raw).
  { apply Forall_forall. intros kv Hin. unfold dated in Hdated.
    rewrite forallb_forall in Hdated. specialize (Hdated kv Hin).
    destruct (entry_date (snd kv)) as [d|]; [eauto | discriminate]. }
  destruct (foldM_invariant normalize_step _ normalized_upto normalize_step_upto
              raw [] [] Hall normalized_upto_nil) as [norm [Hrun [Hcov Hlat Hnd]]].
  simpl in Hcov, Hlat.
  exists norm. split.
  { unfold load_purchase_history. rewrite Hfile. cbn [json_load json_items bind].
    rewrite Hrun. reflexivity. }
  split.
  { intros n. rewrite dict_get_keys. split.
    - intros [v Hv]. destruct (Hlat n v Hv) as [d [_ [[k0 [v0 [Hin [Hk _]]]] _]]].
      exists k0. split; [|auto]. unfold keys. apply (in_map fst) in Hin. exact Hin.
    - intros [k0 [Hin ->]]. unfold keys in Hin. apply in_map_iff in Hin.
      destruct Hin as [[k1 v1] [Hfst Hin]]. simpl in Hfst. subst k1.
      apply (Hcov k0 v1 Hin). }
  intros n v Hv. destruct (Hlat n v Hv) as [d [Hd [[k0 [v0 [Hin [Hk Hs]]]] Hmax]]].
  exists d. split; [assumption|]. split; [|exact Hmax].
  exists k0, v0. repeat split; try assumption.
  unfold entry_date in *. unfold LAST in *. rewrite Hs. exact Hd.
Qed.

Example load_two_milks :
  load_purchase_history (mkFiles Missing (Doc (JObj two_milks)) Missing) =
  Ok ([("milk", JObj [("last_purchase_date", JStr "2025-10-27")]);
       ("eggs", JObj [("last_purchase_date", JStr "2025-10-21")])],
      mkFiles Missing
        (Doc (JObj [("milk", JObj [("last_purchase_date", JStr "2025-10-27")]);
                    ("eggs", JObj [("last_purchase_date", JStr "2025-10-21")])]))
        Missing).
Proof. vm_compute. reflexivity. Qed.

Lemma load_purchase_history_normalizes_witness :
  exists norm : dict json,
    load_purchase_history (mkFiles Missing (Doc (JObj two_milks)) Missing)
      = Ok (norm, write_purchase_history (JObj norm)
                    (mkFiles Missing (Doc (JObj two_milks)) Missing)) /\
    (forall n, In n (keys norm) <->
               exists k0, In k0 (keys two_milks) /\ n = PyStr.lower k0).
Proof.
  destruct (proj2 (load_purchase_history_normalizes
                     (mkFiles Missing (Doc (JObj two_milks)) Missing))
              two_milks eq_refl eq_refl) as [norm [Hload [Hkeys _]]].
  exists norm. split; assumption.
Defined.

(** ** C3: missing-item suggestions *)

Lemma append_cancel_r (a b s : string) : (a ++ s = b ++ s)%string -> a = b.
Proof.
  revert b. induction a as [|x a IH]; intros [|y b] H; simpl in H.
  - reflexivity.
  - exfalso. apply (f_equal String.length) in H. simpl in H.
    rewrite length_append in H. lia.
  - exfalso. apply (f_equal String.length) in H. simpl in H.
    rewrite length_append in H. lia.
  - inversion H. f_equal. auto.
Qed.

Lemma missing_msg_inj (k k' : string) : missing_msg k = missing_msg k' -> k = k'.
Proof.
  unfold missing_msg. simpl. intros H. inversion H as [H'].
  apply append_cancel_r in H'. exact H'.
Qed.

Lemma set_mem_In (x : string) (s : list string) : set_mem x s = true <-> In x s.
Proof.
  unfold set_mem. rewrite existsb_exists. split.
  - intros [y [Hin Heq]]. apply String.eqb_eq in Heq. subst. assumption.
  - intros Hin. exists x. split; [assumption | apply String.eqb_refl].
Qed.

Lemma set_add_In (x y : string) (s : list string) :
  In y (set_add x s) <-> y = x \/ In y s.
Proof.
  unfold set_add. destruct (set_mem x s) eqn:E; simpl.
  - apply set_mem_In in E. split; [auto | intros [->|H]; assumption].
  - split; [intros [H|H]; auto | intros [H|H]; auto].
Qed.

Lemma current_list_lower_In (l : list Product) (s0 : list string) (n : string) :
  In n (fold_left (fun s item => set_add (PyStr.lower (name item)) s) l s0) <->
  In n s0 \/ exists item, In item l /\ PyStr.lower (name item) = n.
Proof.
  revert s0. induction l as [|item l IH]; intros s0; simpl.
  - split; [auto | intros [H|[item [[] _]]]; assumption].
  - rewrite IH, set_add_In. split.
    + intros [[->|H]|[i [Hi Hn]]]; eauto.
    + intros [H|[i [[<-|Hi] Hn]]]; eauto.
Qed.

(** Where a list with one more element at the end splits. *)
Lemma split_snoc {A} (done pre post : list A) (x y : A) :
  done ++ [x] = pre ++ y :: post ->
  (post = [] /\ pre = done /\ y = x) \/
  (exists post', post = post' ++ [x] /\ done = pre ++ y :: post').
Proof.
  intros H. induction post as [|z post' _] using rev_ind.
  - left. apply app_inj_tail in H. destruct H; auto.
  - right. exists post'.
    change (pre ++ y :: post' ++ [z]) with (pre ++ (y :: post') ++ [z]) in H.
    rewrite app_assoc in H. apply app_inj_tail in H. destruct H as [H ->]. auto.
Qed.

Lemma suggested_keeps today cur done x k :
  suggested today cur done k -> suggested today cur (done ++ [x]) k.
Proof.
  intros [pre [v [post [d [-> H]]]]].
  exists pre, v, (post ++ [x]), d. split; [|exact H].
  rewrite <- app_assoc. reflexivity.
Qed.

Lemma suggested_snoc today cur done k0 v0 k :
  suggested today cur (done ++ [(k0, v0)]) k ->
  suggested today cur done k \/
  (k = k0 /\ ~ In (PyStr.lower k0) (map PyStr.lower (keys done)) /\
   set_mem (PyStr.lower k0) cur = false /\
   exists d, entry_date v0 = Ok d /\ days_between today d > 7).
Proof.
  intros [pre [v [post [d [Hsplit [Hfirst [Hcur [Hd Hdays]]]]]]]].
  apply split_snoc in Hsplit. destruct Hsplit as [[-> [-> Heq]]|[post' [-> ->]]].
  - right. inversion Heq; subst. eauto 6.
  - left. exists pre, v, post', d. auto.
Qed.

Lemma suggested_key today cur done k :
  suggested today cur done k -> In (PyStr.lower k) (map PyStr.lower (keys done)).
Proof.
  intros [pre [v [post [d [-> _]]]]]. apply in_map. unfold keys. rewrite map_app.
  apply in_or_app. right. left. reflexivity.
Qed.

Lemma keys_snoc (done : dict json) (k : string) (v : json) (n : string) :
  In n (map PyStr.lower (keys (done ++ [(k, v)]))) <->
  In n (map PyStr.lower (keys done)) \/ n = PyStr.lower k.
Proof.
  unfold keys. rewrite !map_app, in_app_iff. simpl. intuition.
Qed.

Lemma missing_step_upto today cur done acc kv :
  (exists d, entry_date (snd kv) = Ok d) ->
  suggested_upto today cur done acc ->
  exists acc', missing_step today cur acc kv = Ok acc' /\
               suggested_upto today cur (done ++ [kv]) acc'.
Proof.
  destruct kv as [k v]. destruct acc as [sugg proc].
  intros [d Hd] [Hproc [names [Hsugg [Hnd Hnames]]]]. simpl in Hd, Hproc, Hsugg.
  unfold missing_step.
  destruct (set_mem (PyStr.lower k) proc) eqn:Eproc.
  - (* a name already processed *)
    apply set_mem_In in Eproc.
    eexists. split; [reflexivity|]. constructor; simpl.
    + intros n. rewrite keys_snoc, Hproc. split; [auto | intros [H| ->]; [assumption|]].
      apply Hproc. assumption.
    + exists names. split; [assumption|]. split; [assumption|].
      intros k'. rewrite Hnames. split; [apply suggested_keeps|].
      intros H. apply suggested_snoc in H. destruct H as [H|[_ [Hnew _]]]; [assumption|].
      exfalso. apply Hnew, Hproc. assumption.
  - assert (Hnew : ~ In (PyStr.lower k) (map PyStr.lower (keys done))).
    { rewrite <- Hproc. intros H. apply set_mem_In in H. congruence. }
    assert (Hproc' : forall n, In n (set_add (PyStr.lower k) proc) <->
                               In n (map PyStr.lower (keys (done ++ [(k, v)])))).
    { intros n. rewrite keys_snoc, set_add_In, Hproc. tauto. }
    destruct (set_mem (PyStr.lower k) cur) eqn:Ecur; cbn [negb].
    + (* on the list *)
      eexists. split; [reflexivity|]. constructor; simpl; [exact Hproc'|].
      exists names. split; [assumption|]. split; [assumption|].
      intros k'. rewrite Hnames. split; [apply suggested_keeps|].
      intros H. apply suggested_snoc in H. destruct H as [H|[_ [_ [Hc _]]]]; [assumption|].
      congruence.
    + destruct (entry_date_inv _ _ Hd) as [fields [s [-> [Gs Ps]]]].
      unfold subscript. rewrite Gs. cbn [bind]. rewrite Ps. cbn [bind].
      destruct (days_between today d >? 7) eqn:Edays.
      * (* bought more than 7 days ago *)
        apply Z.gtb_gt in Edays.
        eexists. split; [reflexivity|]. constructor; simpl; [exact Hproc'|].
        exists (names ++ [k]). split; [rewrite map_app, Hsugg; reflexivity|]. split.
        -- rewrite map_app. apply NoDup_app; [assumption | repeat constructor; simpl; tauto |].
           intros n Hn [<-|[]]. apply Hnew.
           apply in_map_iff in Hn. destruct Hn as [k1 [Hk1 Hin]].
           rewrite <- Hk1. apply (suggested_key today cur). apply Hnames. assumption.
        -- intros k'. rewrite in_app_iff, Hnames. split.
           ++ intros [H|[<-|[]]]; [apply suggested_keeps; assumption|].
              exists done, (JObj fields), [], d. auto.
           ++ intros H. apply suggested_snoc in H. destruct H as [H|[-> _]]; simpl; auto.
      * (* bought within the last 7 days *)
        assert (Hle : ~ days_between today d > 7).
        { intros H. apply Z.gtb_gt in H. congruence. }
        eexists. split; [reflexivity|]. constructor; simpl; [exact Hproc'|].
        exists names. split; [assumption|]. split; [assumption|].
        intros k'. rewrite Hnames. split; [apply suggested_keeps|].
        intros H. apply suggested_snoc in H.
        destruct H as [H|[_ [_ [_ [d' [Hd' Hgt]]]]]]; [assumption|].
        rewrite Hd in Hd'. inversion Hd'; subst d'. contradiction.
Qed.

Lemma distinct_NoDup (l : list string) : distinct l = true -> NoDup l.
Proof.
  induction l as [|x l IH]; simpl; intros H; constructor;
    apply andb_true_iff in H; destruct H as [Hx Hl].
  - intros Hin. apply set_mem_In in Hin. rewrite Hin in Hx. discriminate.
  - auto.
Qed.

Lemma NoDup_map_injective {A B} (f : A -> B) (l : list A) :
  (forall x y, f x = f y -> x = y) -> NoDup l -> NoDup (map f l).
Proof.
  intros Hinj. induction 1 as [|x l Hx Hl IH]; simpl; constructor; [|assumption].
  intros Hin. apply in_map_iff in Hin. destruct Hin as [y [Hxy Hy]].
  apply Hinj in Hxy. subst. contradiction.
Qed.

Lemma suggested_upto_nil today cur : suggested_upto today cur [] ([], []).
Proof.
  constructor; simpl; [tauto|].
  exists []. split; [reflexivity|]. split; [constructor|].
  intros k. split; [intros [] | intros [pre [v [post [d [H _]]]]]].
  destruct pre; discriminate.
Qed.

(** C3.  For every list and every history whose entries carry a readable
    date, [suggest_missing_items] returns the suggestions of a sequence of
    history names in which no lower-cased name occurs twice, none of them on
    the list.  When the history has one entry per lower-cased name, an entry
    whose lower-cased name is not on the list gets a suggestion iff
    [(today - last_purchase_date).days > 7], and then exactly one: none at
    exactly 7 days, one at 8 days. *)
Theorem suggest_missing_items_threshold (today : date) (self : GroceryAssistant) :
  dated (purchase_history self) = true ->
  exists names : list string,
    suggest_missing_items today self = Ok (map missing_msg names) /\
    NoDup (map PyStr.lower names) /\
    (forall k, In k names -> In k (keys (purchase_history self))) /\
    (forall k item, In k names -> In item (items self) ->
       PyStr.lower (name item) <> PyStr.lower k) /\
    (distinct (map PyStr.lower (keys (purchase_history self))) = true ->
     forall k v d,
       In (k, v) (purchase_history self) ->
       entry_date v = Ok d ->
       (forall item, In item (items self) -> PyStr.lower (name item) <> PyStr.lower k) ->
       (In (missing_msg k) (map missing_msg names) <-> days_between today d > 7) /\
       (days_between today d > 7 ->
        count_occ string_dec (map missing_msg names) (missing_msg k) = 1%nat) /\
       (days_between today d = 7 -> ~ In (missing_msg k) (map missing_msg names)) /\
       (days_between today d = 8 ->
        count_occ string_dec (map missing_msg names) (missing_msg k) = 1%nat)).
Proof.
  intros Hdated.
  set (h := purchase_history self) in *.
  set (cur := fold_left (fun s item => set_add (PyStr.lower (name item)) s) (items self) []).
  assert (Hcur : forall n, set_mem n cur = false <->
                           forall item, In item (items self) -> PyStr.lower (name item) <> n).
  { intros n. rewrite <- not_true_iff_false, set_mem_In. unfold cur.
    rewrite current_list_lower_In. split.
    - intros H item Hin Heq. apply H. right. eauto.
    - intros H [[]|[item [Hin Heq]]]. exact (H item Hin Heq). }
  assert (Hall : Forall (fun kv : string * json => exists d, entry_date (snd kv) = Ok d) h).
  { apply Forall_forall. intros kv Hin. unfold dated in Hdated.
    rewrite forallb_forall in Hdated. specialize (Hdated kv Hin).
    destruct (entry_date (snd kv)) as [d|]; [eauto | discriminate]. }
  destruct (foldM_invariant (missing_step today cur) _ (suggested_upto today cur)
              (missing_step_upto today cur) h [] ([], []) Hall (suggested_upto_nil today cur))
    as [[sugg proc] [Hrun [_ [names [Hs [Hnd Hnames]]]]]].
  simpl in Hs, Hnames. subst sugg.
  exists names. split.
  { unfold suggest_missing_items. fold cur. fold h. rewrite Hrun. reflexivity. }
  split; [exact Hnd|]. split.
  { intros k Hk. apply Hnames in Hk. destruct Hk as [pre [v [post [d [-> _]]]]].
    unfold keys. rewrite map_app. apply in_or_app. right. left. reflexivity. }
  split.
  { intros k item Hk Hitem. apply Hnames in Hk.
    destruct Hk as [pre [v [post [d [_ [_ [Hc _]]]]]]].
    apply (proj1 (Hcur _) Hc). assumption. }
  intros Hdist k v d Hin Hd Hnot.
  apply distinct_NoDup in Hdist.
  assert (Hkeys : NoDup (keys h)) by (apply (NoDup_map_inv PyStr.lower); assumption).
  assert (Hiff : In k names <-> days_between today d > 7).
  { rewrite Hnames. split.
    - intros [pre [v' [post [d' [Hsplit [_ [_ [Hd' Hgt]]]]]]]].
      assert (Hv : dict_get k h = Some v') by
          (apply dict_get_unique; [assumption | rewrite Hsplit; apply in_elt]).
      rewrite (dict_get_unique k v h Hkeys Hin) in Hv. inversion Hv; subst v'.
      rewrite Hd in Hd'. inversion Hd'; subst d'. assumption.
    - intros Hgt. destruct (in_split _ _ Hin) as [pre [post Hsplit]].
      exists pre, v, post, d. split; [assumption|]. split; [|split; [|auto]].
      + rewrite Hsplit in Hdist. unfold keys in Hdist.
        rewrite !map_app in Hdist. simpl in Hdist.
        apply NoDup_remove_2 in Hdist. intros Hp. apply Hdist.
        apply in_or_app. left. exact Hp.
      + apply Hcur. assumption. }
  assert (Hmsg : In (missing_msg k) (map missing_msg names) <-> In k names).
  { rewrite in_map_iff. split.
    - intros [k' [Heq Hk']]. apply missing_msg_inj in Heq. subst. assumption.
    - intros Hk. eauto. }
  assert (Hone : In k names ->
                 count_occ string_dec (map missing_msg names) (missing_msg k) = 1%nat).
  { intros Hk.
    assert (Hnd' : NoDup (map missing_msg names)).
    { apply NoDup_map_injective; [intros x y; apply missing_msg_inj|].
      apply (NoDup_map_inv PyStr.lower). assumption. }
    apply (proj1 (NoDup_count_occ' string_dec _) Hnd'). apply Hmsg. assumption. }
  split; [rewrite Hmsg; exact Hiff|].
  split; [intros Hgt; apply Hone, Hiff; assumption|].
  split.
  - intros H7 Hm. apply Hmsg, Hiff in Hm. lia.
  - intros H8. apply Hone, Hiff. lia.
Qed.

Example suggest_last_week :
  suggest_missing_items a_monday bread_on_list
  = Ok ["You bought milk a last week, consider adding it."].
Proof. vm_compute. reflexivity. Qed.

Lemma suggest_missing_items_threshold_witness :
  exists names : list string,
    suggest_missing_items a_monday bread_on_list = Ok (map missing_msg names) /\
    In (missing_msg "milk") (map missing_msg names) /\
    ~ In (missing_msg "eggs") (map missing_msg names).
Proof.
  destruct (suggest_missing_items_threshold a_monday bread_on_list eq_refl)
    as [names [Hrun [_ [_ [_ Hentry]]]]].
  exists names. split; [exact Hrun|]. split.
  - apply (Hentry eq_refl "milk" _ (mkDate 2025 10 26)
             (or_introl eq_refl) eq_refl).
    + intros item [<-|[]]. simpl. discriminate.
    + vm_compute. reflexivity.
  - apply (Hentry eq_refl "eggs" _ (mkDate 2025 10 27)
             (or_intror (or_introl eq_refl)) eq_refl).
    + intros item [<-|[]]. simpl. discriminate.
    + vm_compute. reflexivity.
Defined.

(** ** Concrete cases *)

Example reminders_on_the_shelf :
  get_expiry_reminders a_monday dairy_shelf = ["Reminder: Milk is expiring in 1 days."].
Proof. reflexivity. Qed.

Lemma get_expiry_reminders_window_witness :
  exists emitted : list string,
    get_expiry_reminders a_monday dairy_shelf =
      get_expiry_reminders a_monday
        (set_items [mkProduct "Milk" None (Some "l") None None (Some (mkDate 2025 11 4))]
                   dairy_shelf)
      ++ emitted ++
      get_expiry_reminders a_monday
        (set_items [mkProduct "Butter" None None None None (Some (mkDate 2025 11 3));
                    mkProduct "Cream" None None None None (Some (mkDate 2025 11 2));
                    mkProduct "Salt" None None None None None]
                   dairy_shelf) /\
    emitted = [].
Proof.
  destruct (get_expiry_reminders_window a_monday dairy_shelf
              [mkProduct "Milk" None (Some "l") None None (Some (mkDate 2025 11 4))]
              [mkProduct "Butter" None None None None (Some (mkDate 2025 11 3));
               mkProduct "Cream" None None None None (Some (mkDate 2025 11 2));
               mkProduct "Salt" None None None None None]
              (mkProduct "Yogurt" None None None None (Some (mkDate 2025 11 9)))
              eq_refl) as [emitted [Hsplit [_ [_ [_ Hlate]]]]].
  exists emitted. split; [exact Hsplit|]. apply Hlate. vm_compute. discriminate.
Defined.

Lemma get_reply_first_match_witness :
  first_match priority (PyStr.lower "Please add 2 kg of Rice to my list") = HAdd /\
  get_reply a_monday "Please add 2 kg of Rice to my list" fresh_assistant
  = as_reply (_handle_add (PyStr.lower "Please add 2 kg of Rice to my list") fresh_assistant).
Proof.
  apply (get_reply_first_match a_monday "Please add 2 kg of Rice to my list" fresh_assistant).
  - reflexivity.
  - reflexivity.
Defined.

Example add_Milk_then_remove_milk :
  let a1 := snd (add_item_to_list (Product_kw "Milk" (Some "l") None) fresh_assistant) in
  remove_item_from_list "milk" a1 =
    (true, set_disk (write_grocery_list (JArr []) no_files) fresh_assistant) /\
  remove_item_from_list "eggs" a1 = (false, a1).
Proof. split; reflexivity. Qed.

Example add_with_and_without_unit :
  exists a1 a2,
    get_reply a_monday "add 2 kg of rice to pantry" fresh_assistant
      = Ok (mkReply "I've added rice to your list." true, a1) /\
    items a1 = [Product_kw "rice" (Some "kg") (Some "pantry")] /\
    get_reply a_monday "Add  Milk" fresh_assistant
      = Ok (mkReply "I've added milk to your list." true, a2) /\
    items a2 = [Product_kw "milk" (Some "pcs") None] /\
    get_reply a_monday "add milk" fresh_assistant = Ok (mkReply add_usage false, fresh_assistant).
Proof.
  eexists _, _. split; [vm_compute; reflexivity|]. split; [reflexivity|].
  split; [vm_compute; reflexivity|]. split; reflexivity.
Qed.

Example purchase_closes_the_list :
  let a := set_purchase_history two_milks
             (set_items [Product_defaults "Milk"; Product_defaults "Rice"] fresh_assistant) in
  purchase_history (snd (mark_items_as_purchased a_monday a)) =
    [("Milk", JObj [("last_purchase_date", JStr "2025-10-20")]);
     ("Eggs", JObj [("last_purchase_date", JStr "2025-10-21")]);
     ("milk", JObj [("last_purchase_date", JStr "2025-11-03")]);
     ("MILK", JObj [("last_purchase_date", JStr "2025-10-22")]);
     ("rice", JObj [("last_purchase_date", JStr "2025-11-03")])] /\
  strptime_ymd (isoformat a_monday) = Ok a_monday.
Proof. split; vm_compute; reflexivity. Qed.

(** ** The history in memory keeps one entry per lower-cased name *)

Lemma NoDup_distinct (l : list string) : NoDup l -> distinct l = true.
Proof.
  induction 1 as [|x l Hx Hl IH]; simpl; [reflexivity|].
  rewrite IH, andb_true_r. apply negb_true_iff, not_true_iff_false.
  rewrite set_mem_In. assumption.
Qed.

Lemma normal_history_distinct (h : dict json) :
  normal_history h -> distinct (map PyStr.lower (keys h)) = true.
Proof.
  intros [Hnd Hlow]. apply NoDup_distinct.
  rewrite (map_ext_in _ (fun n => n) _ Hlow), map_id. assumption.
Qed.

(** Closing the purchases keeps it so. *)
Lemma mark_items_as_purchased_normal (today : date) (self : GroceryAssistant) :
  normal_history (purchase_history self) ->
  normal_history (purchase_history (snd (mark_items_as_purchased today self))).
Proof.
  unfold mark_items_as_purchased.
  cbn [fst snd items purchase_history categories disk set_items set_purchase_history
       set_disk save_grocery_list].
  generalize (purchase_history self) as h.
  induction (items self) as [|item l IH]; intros h Hh; simpl; [assumption|].
  apply IH. apply normal_history_set. assumption.
Qed.

(** So the assistant that [init] builds suggests by the 7-day rule, entry by
    entry. *)
Lemma init_history_normal (fs : files) (a : GroceryAssistant) :
  init fs = Ok a -> distinct (map PyStr.lower (keys (purchase_history a))) = true.
Proof.
  unfold init.
  destruct (load_purchase_history fs) as [[h fs1]|] eqn:E; [|discriminate].
  cbn [bind]. apply load_purchase_history_normal in E.
  destruct (load_categories fs1) as [c|]; [|discriminate]. cbn [bind].
  unfold load_grocery_list.
  destruct (except_missing_or_malformed _ _) as [l|]; [|discriminate]. cbn [bind].
  intros H. inversion H; subst. cbn [purchase_history set_items].
  apply normal_history_distinct. assumption.
Qed.

(* ================================================================== *)
(** * Further properties *)

(** ** Dates written and read back *)

Lemma all_from_spec (check : Z -> bool) (count : nat) :
  forall from y, all_from check count from = true ->
                 from <= y < from + Z.of_nat count -> check y = true.
Proof.
  induction count as [|n IH]; intros from y H Hy; [lia|].
  simpl in H. apply andb_true_iff in H. destruct H as [Hhere Hrest].
  destruct (Z.eq_dec y from) as [->|Hne]; [assumption|].
  apply (IH (from + 1)); [assumption | lia].
Qed.

Lemma all_years_check : all_from year_check (Z.to_nat 9999) 1 = true.
Proof. vm_compute. reflexivity. Qed.

Lemma year_digits (y : Z) :
  1 <= y <= 9999 ->
  exists c1 c2 c3 c4,
    zero_pad 4 y = String c1 (String c2 (String c3 (String c4 ""))) /\
    PyStr.isdigit c1 = true /\ PyStr.isdigit c2 = true /\
    PyStr.isdigit c3 = true /\ PyStr.isdigit c4 = true /\
    int_of (String c1 (String c2 (String c3 (String c4 ""))))  = y.
Proof.
  intros Hy.
  assert (H : year_check y = true).
  { apply (all_from_spec year_check (Z.to_nat 9999) 1 y all_years_check).
    rewrite Z2Nat.id; lia. }
  unfold year_check in H.
  destruct (zero_pad 4 y) as [|c1 [|c2 [|c3 [|c4 [|c5 rest]]]]]; try discriminate.
  do 4 (apply andb_true_iff in H; destruct H as [H ?]).
  exists c1, c2, c3, c4. repeat split; try assumption. apply Z.eqb_eq. assumption.
Qed.

Lemma ymd_match (c1 c2 c3 c4 : ascii) (m d : Z) :
  PyStr.isdigit c1 = true -> PyStr.isdigit c2 = true ->
  PyStr.isdigit c3 = true -> PyStr.isdigit c4 = true ->
  1 <= m <= 12 -> 1 <= d <= 31 ->
  Re.rmatch_at ymd_pattern
    (String c1 (String c2 (String c3 (String c4
       ("-" ++ zero_pad 2 m ++ "-" ++ zero_pad 2 d)%string))))
  = Some ([("Y", String c1 (String c2 (String c3 (String c4 ""))));
           ("m", zero_pad 2 m); ("d", zero_pad 2 d)], "") /\
  int_of (zero_pad 2 m) = m /\ int_of (zero_pad 2 d) = d.
Proof.
  intros H1 H2 H3 H4 Hm Hd.
  assert (Im : In m [1; 2; 3; 4; 5; 6; 7; 8; 9; 10; 11; 12]) by (simpl; lia).
  assert (Id : In d [1; 2; 3; 4; 5; 6; 7; 8; 9; 10; 11; 12; 13; 14; 15; 16; 17; 18; 19; 20;
                     21; 22; 23; 24; 25; 26; 27; 28; 29; 30; 31]) by (simpl; lia).
  clear Hm Hd.
  unfold Re.rmatch_at, ymd_pattern. cbn [Re.rmatch Re.Lit]. rewrite H1, H2, H3, H4.
  simpl in Im, Id.
  repeat (destruct Im as [<-|Im]; [|]); try contradiction;
    repeat (destruct Id as [<-|Id]; [|]); try contradiction;
    repeat split; reflexivity.
Qed.

Lemma days_in_month_le_31 (y m : Z) : days_in_month y m <= 31.
Proof.
  unfold days_in_month.
  destruct (m =? 2); [destruct (is_leap y); lia|].
  destruct (_ || _); lia.
Qed.

(** What [isoformat] prints of a valid date, [strptime] reads as that date. *)
Lemma strptime_isoformat (d : date) :
  valid_date d = true -> strptime_ymd (isoformat d) = Ok d.
Proof.
  destruct d as [y m dd]. unfold valid_date. cbn [year month day].
  intros H. do 5 (apply andb_true_iff in H; destruct H as [H ?]).
  repeat match goal with Hle : (_ <=? _) = true |- _ => apply Z.leb_le in Hle end.
  pose proof (days_in_month_le_31 y m) as H31.
  destruct (year_digits y) as [c1 [c2 [c3 [c4 [Hy [D1 [D2 [D3 [D4 Hint]]]]]]]]]; [lia|].
  destruct (ymd_match c1 c2 c3 c4 m dd D1 D2 D3 D4) as [Hmatch [Hm Hd]]; [lia | lia |].
  assert (Hiso : isoformat (mkDate y m dd) =
                 String c1 (String c2 (String c3 (String c4
                   ("-" ++ zero_pad 2 m ++ "-" ++ zero_pad 2 dd)%string)))).
  { unfold isoformat. cbn [year month day]. rewrite Hy. reflexivity. }
  unfold strptime_ymd. rewrite Hiso, Hmatch.
  cbn [Re.group dict_get String.eqb Ascii.eqb Bool.eqb].
  rewrite Hint, Hm, Hd.
  replace (1 <=? y) with true by (symmetry; apply Z.leb_le; lia).
  replace (dd <=? days_in_month y m) with true by (symmetry; apply Z.leb_le; lia).
  reflexivity.
Qed.

(** ** product.py: to_dict and from_dict *)

(** A product with a purchase date is written by [to_dict] and read back by
    [from_dict] as itself; without a purchase date [to_dict] raises
    [AttributeError], whatever the other fields. *)
Theorem legacy_to_dict_from_dict (p : Legacy.Product) :
  (Legacy.purchase_date p = None -> Legacy.to_dict p = Raise AttributeError) /\
  (forall bought,
     Legacy.purchase_date p = Some bought ->
     valid_date bought = true ->
     valid_opt_date (Legacy.expiry_date p) = true ->
     exists written,
       Legacy.to_dict p = Ok written /\ Legacy.from_dict written = Ok p).
Proof.
  destruct p as [n c pd ed]. cbn [Legacy.purchase_date Legacy.expiry_date]. split.
  - intros ->. reflexivity.
  - intros bought -> Hb He.
    unfold Legacy.to_dict. cbn [Legacy.purchase_date Legacy.expiry_date Legacy.isoformat_of bind
                                Legacy.name Legacy.category].
    destruct ed as [e|]; cbn [Legacy.isoformat_of bind]; eexists; (split; [reflexivity|]).
    + unfold Legacy.from_dict.
      cbn [subscript dict_get String.eqb Ascii.eqb Bool.eqb bind strptime].
      rewrite (strptime_isoformat bought Hb). cbn [bind Legacy.truthy].
      assert (Hne : String.eqb (isoformat e) "" = false).
      { unfold isoformat. simpl in He.
        destruct (year_digits (year e)) as [c1 [c2 [c3 [c4 [Hy _]]]]].
        { unfold valid_date in He. do 5 (apply andb_true_iff in He; destruct He as [He ?]).
          repeat match goal with Hle : (_ <=? _) = true |- _ => apply Z.leb_le in Hle end.
          lia. }
        rewrite Hy. reflexivity. }
      rewrite Hne. cbn [negb bind strptime]. simpl in He.
      rewrite (strptime_isoformat e He). reflexivity.
    + unfold Legacy.from_dict.
      cbn [subscript dict_get String.eqb Ascii.eqb Bool.eqb bind strptime].
      rewrite (strptime_isoformat bought Hb). reflexivity.
Qed.

(** ** The grocery list, saved and loaded *)

Lemma Product_validate_dict (p : Product) :
  valid_item p = true -> Product_validate (Product_dict p) = Ok p.
Proof.
  unfold valid_item. intros H. apply andb_true_iff in H. destruct H as [Hp He].
  destruct p as [n q u c pd ed].
  cbn [name quantity unit category purchase_date expiry_date] in *.
  unfold Product_validate, Product_dict, opt_str_field, opt_date_field.
  cbn [name quantity unit category purchase_date expiry_date].
  destruct q, u, c, pd, ed; cbn [valid_opt_date] in *;
    cbn -[strptime_ymd isoformat];
    rewrite ?strptime_isoformat by assumption; reflexivity.
Qed.

Lemma mapM_validate_dict (l : list Product) :
  forallb valid_item l = true -> mapM Product_validate (map Product_dict l) = Ok l.
Proof.
  induction l as [|p l IH]; cbn [map mapM forallb]; [reflexivity|].
  intros H. apply andb_true_iff in H. destruct H as [Hp Hl].
  rewrite (Product_validate_dict p Hp). cbn [bind]. rewrite (IH Hl). reflexivity.
Qed.

(** What [save_grocery_list] writes, [load_grocery_list] reads as the same
    list: saving and loading changes nothing more than saving. *)
Theorem save_then_load_grocery_list (self : GroceryAssistant) :
  forallb valid_item (items self) = true ->
  load_grocery_list (save_grocery_list self) = Ok (save_grocery_list self).
Proof.
  intros Hv. unfold load_grocery_list, save_grocery_list.
  cbn [disk set_disk write_grocery_list grocery_list_file json_load bind json_iter].
  rewrite (mapM_validate_dict _ Hv).
  cbn [except_missing_or_malformed bind items set_disk]. destruct self; reflexivity.
Qed.

(** ** A normalized history file *)

Lemma dict_set_fresh {V} (k : string) (v : V) (d : dict V) :
  dict_get k d = None -> dict_set k v d = d ++ [(k, v)].
Proof.
  induction d as [|[k' v'] d IH]; simpl; [reflexivity|].
  destruct (String.eqb k' k); [discriminate|]. intros H. rewrite (IH H). reflexivity.
Qed.

Lemma dict_get_absent {V} (k : string) (d : dict V) :
  ~ In k (keys d) -> dict_get k d = None.
Proof.
  intros H. destruct (dict_get k d) as [v|] eqn:E; [|reflexivity].
  exfalso. apply H. apply dict_get_keys. eauto.
Qed.

(** On entries with lower-cased keys, each once, the normalization loop
    copies its input. *)
Lemma normalize_copies (l : dict json) :
  forall acc,
    (forall k, In k (keys l) -> PyStr.lower k = k) ->
    NoDup (keys (acc ++ l)) ->
    foldM normalize_step l acc = Ok (acc ++ l).
Proof.
  induction l as [|[k v] l IH]; intros acc Hlow Hnd; simpl.
  - rewrite app_nil_r. reflexivity.
  - rewrite (Hlow k (or_introl eq_refl)).
    assert (Hfresh : dict_get k acc = None).
    { apply dict_get_absent. unfold keys in *. rewrite map_app in Hnd. simpl in Hnd.
      apply NoDup_remove_2 in Hnd. intros Hin. apply Hnd. apply in_or_app. auto. }
    rewrite Hfresh. cbn [bind]. rewrite (dict_set_fresh k v acc Hfresh).
    rewrite IH.
    + rewrite <- app_assoc. reflexivity.
    + intros k' Hk'. apply Hlow. right. assumption.
    + rewrite <- app_assoc. assumption.
Qed.

Lemma write_purchase_history_same (fs : files) (j : json) :
  purchase_history_file fs = Doc j -> write_purchase_history j fs = fs.
Proof. destruct fs. simpl. intros ->. reflexivity. Qed.

Lemma load_normal_history (fs : files) (h : dict json) :
  normal_history h ->
  purchase_history_file fs = Doc (JObj h) ->
  load_purchase_history fs = Ok (h, fs).
Proof.
  intros [Hnd Hlow] Hfile. unfold load_purchase_history. rewrite Hfile.
  cbn [json_load json_items bind].
  rewrite (normalize_copies h [] Hlow Hnd). cbn [bind app except_missing_or_malformed].
  rewrite (write_purchase_history_same fs _ Hfile). reflexivity.
Qed.

(** Loading twice is loading once: the second load returns the history of
    the first and leaves the files as the first left them. *)
Theorem load_purchase_history_idempotent (fs fs' : files) (h : dict json) :
  load_purchase_history fs = Ok (h, fs') ->
  load_purchase_history fs' = Ok (h, fs').
Proof.
  intros Hload.
  pose proof (load_purchase_history_normal fs fs' h Hload) as Hnormal.
  destruct (purchase_history_file fs) as [| |j] eqn:F.
  - unfold load_purchase_history in Hload. rewrite F in Hload.
    inversion Hload; subst. unfold load_purchase_history. rewrite F. reflexivity.
  - unfold load_purchase_history in Hload. rewrite F in Hload.
    inversion Hload; subst. unfold load_purchase_history. rewrite F. reflexivity.
  - destruct j as [| | | | |raw];
      try (unfold load_purchase_history in Hload; rewrite F in Hload; discriminate).
    rewrite (load_purchase_history_written fs fs' h raw F Hload).
    apply load_normal_history; [assumption | reflexivity].
Qed.

(** After the purchases are closed, the history file loads as the history
    in memory, and loading leaves the files alone. *)
Theorem reload_after_purchase (today : date) (self : GroceryAssistant) :
  normal_history (purchase_history self) ->
  load_purchase_history (disk (snd (mark_items_as_purchased today self)))
  = Ok (purchase_history (snd (mark_items_as_purchased today self)),
        disk (snd (mark_items_as_purchased today self))).
Proof.
  intros Hn. apply load_normal_history.
  - apply mark_items_as_purchased_normal. assumption.
  - reflexivity.
Qed.

(** ** Restarting on the files the assistant wrote *)

(** An assistant whose files mirror it is the assistant a restart builds. *)
Theorem init_restores_persisted (a : GroceryAssistant) :
  persisted a -> init (disk a) = Ok a.
Proof.
  intros [Hlist Hhist Hcat Hnormal Hvalid]. unfold init.
  rewrite (load_normal_history (disk a) (purchase_history a) Hnormal Hhist). cbn [bind].
  assert (Hc : load_categories (disk a) = Ok (categories a)).
  { unfold load_categories. destruct Hcat as [Hc|[Hc Hempty]]; rewrite Hc.
    - reflexivity.
    - rewrite Hempty. reflexivity. }
  rewrite Hc. cbn [bind]. unfold load_grocery_list.
  cbn [disk]. rewrite Hlist. cbn [json_load json_iter bind].
  rewrite (mapM_validate_dict _ Hvalid). cbn [except_missing_or_malformed bind set_items].
  destruct a; reflexivity.
Qed.

Lemma persisted_add (item : Product) (a : GroceryAssistant) :
  valid_item item = true -> persisted a -> persisted (snd (add_item_to_list item a)).
Proof.
  intros Hv [Hlist Hhist Hcat Hnormal Hvalid].
  constructor; cbn; try assumption; try reflexivity.
  rewrite forallb_app, Hvalid. simpl. rewrite Hv. reflexivity.
Qed.

Lemma remove_unchanged (query : string) (a : GroceryAssistant) :
  fst (remove_item_from_list query a) = false -> snd (remove_item_from_list query a) = a.
Proof.
  unfold remove_item_from_list. cbn [items set_items].
  destruct (Nat.ltb _ _) eqn:E; cbn [fst snd]; [discriminate|]. intros _.
  apply Nat.ltb_ge in E. rewrite (filter_keeps_length _ _ E). apply set_items_same.
Qed.

Lemma forallb_filter {A} (f g : A -> bool) (l : list A) :
  forallb f l = true -> forallb f (filter g l) = true.
Proof.
  induction l as [|x l IH]; simpl; [reflexivity|].
  intros H. apply andb_true_iff in H. destruct H as [Hx Hl].
  destruct (g x); simpl; [rewrite Hx|]; auto.
Qed.

Lemma persisted_remove (query : string) (a : GroceryAssistant) :
  persisted a -> persisted (snd (remove_item_from_list query a)).
Proof.
  intros Hp. destruct (fst (remove_item_from_list query a)) eqn:E.
  - destruct Hp as [Hlist Hhist Hcat Hnormal Hvalid].
    unfold remove_item_from_list in *. cbn [items set_items] in *.
    destruct (Nat.ltb _ _); cbn [fst snd] in *; [|discriminate].
    constructor; cbn; try assumption; try reflexivity.
    apply forallb_filter. assumption.
  - rewrite (remove_unchanged query a E). assumption.
Qed.

Lemma persisted_mark (today : date) (a : GroceryAssistant) :
  normal_history (purchase_history a) ->
  (categories_file (disk a) = Doc (categories a) \/
   (categories_file (disk a) = Missing /\ categories a = JObj [])) ->
  persisted (snd (mark_items_as_purchased today a)).
Proof.
  intros Hn Hcat.
  constructor; try reflexivity; try assumption.
  apply mark_items_as_purchased_normal. assumption.
Qed.

(** Whatever files the assistant started from, once the purchases are
    closed a restart builds the very same assistant. *)
Theorem restart_after_purchase (fs : files) (today : date) (a : GroceryAssistant) :
  init fs = Ok a ->
  init (disk (snd (mark_items_as_purchased today a)))
  = Ok (snd (mark_items_as_purchased today a)).
Proof.
  intros Hinit. apply init_restores_persisted. unfold init in Hinit.
  destruct (load_purchase_history fs) as [[h fs1]|] eqn:E; [|discriminate].
  cbn [bind] in Hinit. apply load_purchase_history_normal in E.
  destruct (categories_file fs1) as [| |c] eqn:C; unfold load_categories in Hinit;
    rewrite C in Hinit; cbn [json_load except_missing bind] in Hinit; try discriminate;
    unfold load_grocery_list in Hinit;
    destruct (except_missing_or_malformed _ _) as [l|]; try discriminate;
    cbn [bind] in Hinit; inversion Hinit; subst a;
    apply persisted_mark; cbn; auto.
Qed.

(** ** What a chat message can do *)

Lemma handle_add_cases (message : string) (a : GroceryAssistant) :
  _handle_add message a = Ok ((add_usage, false), a) \/
  exists n u c text,
    _handle_add message a
    = Ok ((text, true), snd (add_item_to_list (Product_kw n (Some u) c) a)).
Proof.
  unfold _handle_add. destruct (Re.search add_pattern message) as [m|] eqn:E; [|auto].
  destruct (ReFacts.search_sets "name" add_pattern message m eq_refl E) as [n Hn].
  unfold group_strip. rewrite Hn. cbn [bind]. right.
  exists (PyStr.strip n), (or_pcs (Re.group "unit" m)), (Re.group "category" m).
  eexists. reflexivity.
Qed.

Lemma handle_remove_cases (message : string) (a : GroceryAssistant) :
  exists text,
    _handle_remove message a = Ok ((text, false), a) \/
    exists query,
      fst (remove_item_from_list query a) = true /\
      _handle_remove message a = Ok ((text, true), snd (remove_item_from_list query a)).
Proof.
  unfold _handle_remove. destruct (Re.search remove_pattern message) as [m|] eqn:E; [|eauto].
  destruct (ReFacts.search_sets "name" remove_pattern message m eq_refl E) as [n Hn].
  unfold group_strip. rewrite Hn. cbn [bind].
  pose proof (remove_unchanged (PyStr.strip n) a) as Hsame.
  destruct (remove_item_from_list (PyStr.strip n) a) as [[|] a1] eqn:R; cbn [fst snd] in *.
  - eexists. right. exists (PyStr.strip n). rewrite R. auto.
  - rewrite (Hsame eq_refl). eauto.
Qed.

Lemma handle_suggestions_state today message a x :
  _handle_suggestions today message a = Ok x -> snd x = a /\ snd (fst x) = false.
Proof.
  unfold _handle_suggestions.
  destruct (suggest_missing_items today a) as [missing|]; [|discriminate]. cbn [bind].
  destruct missing, (suggest_healthier_alternatives a); cbn [app];
    intros H; inversion H; auto.
Qed.

Lemma handle_expiring_state today message a :
  snd (_handle_expiring today message a) = a /\
  snd (fst (_handle_expiring today message a)) = false.
Proof.
  unfold _handle_expiring. destruct (get_expiry_reminders today a); auto.
Qed.

(** The refresh flag of a reply is honest: without it nothing has changed,
    neither in memory nor in the files; with it the list file holds the
    list as it now is. *)
Theorem get_reply_refresh
    (today : date) (message : string) (a a' : GroceryAssistant) (r : Reply) :
  get_reply today message a = Ok (r, a') ->
  (refresh r = false -> a' = a) /\
  (refresh r = true ->
   grocery_list_file (disk a') = Doc (JArr (map Product_dict (items a')))).
Proof.
  rewrite get_reply_dispatch.
  destruct (first_match priority (PyStr.lower message)); cbn [run_handler].
  - destruct (handle_add_cases (PyStr.lower message) a) as [H|[n [u [c [text H]]]]];
      rewrite H; cbn; intros E; inversion E; subst; cbn; split; auto; discriminate.
  - destruct (handle_remove_cases (PyStr.lower message) a) as [text [H|[q [Hq H]]]];
      rewrite H; cbn [as_reply bind]; intros E; inversion E; subst; cbn [refresh];
      split; try discriminate; auto.
    intros _. unfold remove_item_from_list in *. cbn [items set_items] in *.
    destruct (Nat.ltb _ _); cbn [fst snd] in *; [reflexivity | discriminate].
  - destruct (handle_expiring_state today (PyStr.lower message) a) as [Hs Hf].
    destruct (_handle_expiring today (PyStr.lower message) a) as [[text flag] a1].
    cbn in *. subst. intros E; inversion E; subst. split; [auto | discriminate].
  - destruct (_handle_suggestions today (PyStr.lower message) a) as [[[text flag] a1]|] eqn:S;
      cbn [as_reply bind]; [|discriminate].
    apply handle_suggestions_state in S. cbn in S. destruct S as [-> ->].
    intros E; inversion E; subst. split; [auto | discriminate].
  - cbn. intros E; inversion E; subst. split; [auto | discriminate].
  - cbn. intros E; inversion E; subst. split; [discriminate | reflexivity].
  - cbn. intros E; inversion E; subst. split; [discriminate | reflexivity].
  - cbn. intros E; inversion E; subst. split; [auto | discriminate].
  - cbn. intros E; inversion E; subst. split; [auto | discriminate].
Qed.

(** A chat message keeps the files mirroring the assistant. *)
Theorem get_reply_keeps_persisted
    (today : date) (message : string) (a a' : GroceryAssistant) (r : Reply) :
  persisted a -> get_reply today message a = Ok (r, a') -> persisted a'.
Proof.
  intros Hp. rewrite get_reply_dispatch.
  destruct (first_match priority (PyStr.lower message)); cbn [run_handler].
  - destruct (handle_add_cases (PyStr.lower message) a) as [H|[n [u [c [text H]]]]];
      rewrite H; cbn [as_reply bind]; intros E; inversion E; subst; [assumption|].
    apply persisted_add; [reflexivity | assumption].
  - destruct (handle_remove_cases (PyStr.lower message) a) as [text [H|[q [Hq H]]]];
      rewrite H; cbn [as_reply bind]; intros E; inversion E; subst; [assumption|].
    apply persisted_remove. assumption.
  - destruct (handle_expiring_state today (PyStr.lower message) a) as [Hs Hf].
    destruct (_handle_expiring today (PyStr.lower message) a) as [[text flag] a1].
    cbn in *. subst. intros E; inversion E; subst. assumption.
  - destruct (_handle_suggestions today (PyStr.lower message) a) as [[[text flag] a1]|] eqn:S;
      cbn [as_reply bind]; [|discriminate].
    apply handle_suggestions_state in S. cbn in S. destruct S as [-> ->].
    intros E; inversion E; subst. assumption.
  - cbn. intros E; inversion E; subst. assumption.
  - cbn [_handle_clear as_reply bind].
    destruct (mark_items_as_purchased today a) as [msg a1] eqn:M.
    intros E; inversion E; subst a'.
    replace a1 with (snd (mark_items_as_purchased today a)) by (rewrite M; reflexivity).
    destruct Hp. apply persisted_mark; assumption.
  - cbn [_handle_purchase as_reply bind].
    destruct (mark_items_as_purchased today a) as [msg a1] eqn:M.
    intros E; inversion E; subst a'.
    replace a1 with (snd (mark_items_as_purchased today a)) by (rewrite M; reflexivity).
    destruct Hp. apply persisted_mark; assumption.
  - cbn. intros E; inversion E; subst. assumption.
  - cbn. intros E; inversion E; subst. assumption.
Qed.

(** With a history whose entries carry a readable date, the suggestions are
    the messages of the suggested names. *)
Lemma suggest_missing_items_names (today : date) (self : GroceryAssistant) :
  dated (purchase_history self) = true ->
  exists names : list string,
    suggest_missing_items today self = Ok (map missing_msg names) /\
    forall k, In k names <->
      suggested today
        (fold_left (fun s item => set_add (PyStr.lower (name item)) s) (items self) [])
        (purchase_history self) k.
Proof.
  intros Hdated.
  set (cur := fold_left (fun s item => set_add (PyStr.lower (name item)) s) (items self) []).
  assert (Hall : Forall (fun kv : string * json => exists d, entry_date (snd kv) = Ok d)
                        (purchase_history self)).
  { apply Forall_forall. intros kv Hin. unfold dated in Hdated.
    rewrite forallb_forall in Hdated. specialize (Hdated kv Hin).
    destruct (entry_date (snd kv)) as [d|]; [eauto | discriminate]. }
  destruct (foldM_invariant (missing_step today cur) _ (suggested_upto today cur)
              (missing_step_upto today cur) (purchase_history self) [] ([], []) Hall
              (suggested_upto_nil today cur))
    as [[sugg proc] [Hrun [_ [names [Hs [_ Hnames]]]]]].
  simpl in Hs, Hnames. subst sugg. exists names. split; [|exact Hnames].
  unfold suggest_missing_items. fold cur. rewrite Hrun. reflexivity.
Qed.

(** Only the suggestions can make [get_reply] raise, and only with what
    [suggest_missing_items] raises; with dated history entries every
    message gets a reply. *)
Theorem get_reply_raises_only_from_suggestions
    (today : date) (message : string) (a : GroceryAssistant) :
  (forall e, get_reply today message a = Raise e ->
     first_match priority (PyStr.lower message) = HSuggestions /\
     suggest_missing_items today a = Raise e) /\
  (dated (purchase_history a) = true ->
   exists r a', get_reply today message a = Ok (r, a')).
Proof.
  assert (Hraise : forall e, get_reply today message a = Raise e ->
     first_match priority (PyStr.lower message) = HSuggestions /\
     suggest_missing_items today a = Raise e).
  { intros e. rewrite get_reply_dispatch.
    destruct (first_match priority (PyStr.lower message)); cbn [run_handler];
      try (cbn; discriminate).
    - destruct (handle_add_cases (PyStr.lower message) a) as [H|[n [u [c [text H]]]]];
        rewrite H; discriminate.
    - destruct (handle_remove_cases (PyStr.lower message) a) as [text [H|[q [Hq H]]]];
        rewrite H; discriminate.
    - destruct (_handle_expiring today (PyStr.lower message) a) as [[text flag] a1].
      discriminate.
    - unfold _handle_suggestions.
      destruct (suggest_missing_items today a) as [missing|e']; cbn [bind as_reply].
      + destruct missing, (suggest_healthier_alternatives a); cbn; discriminate.
      + intros H. inversion H. auto. }
  split; [exact Hraise|].
  intros Hdated. destruct (get_reply today message a) as [[r a']|e] eqn:E; [eauto|].
  destruct (Hraise e eq_refl) as [_ Hs].
  destruct (suggest_missing_items_names today a Hdated) as [names [Hok _]].
  congruence.
Qed.

(** ** Adding, removing and closing, one after the other *)

Lemma filter_filter_same {A} (f : A -> bool) (l : list A) :
  filter f (filter f l) = filter f l.
Proof.
  induction l as [|x l IH]; simpl; [reflexivity|].
  destruct (f x) eqn:E; simpl; [rewrite E, IH|]; auto.
Qed.

Lemma remove_items (query : string) (a : GroceryAssistant) :
  items (snd (remove_item_from_list query a)) =
  filter (fun item => negb (String.eqb (PyStr.lower (name item)) (PyStr.lower query)))
         (items a).
Proof.
  unfold remove_item_from_list. cbn [items set_items].
  destruct (Nat.ltb _ _); reflexivity.
Qed.

(** Removing a name a second time finds nothing and changes nothing. *)
Theorem remove_twice (query : string) (a : GroceryAssistant) :
  remove_item_from_list query (snd (remove_item_from_list query a))
  = (false, snd (remove_item_from_list query a)).
Proof.
  pose proof (remove_items query a) as Hitems.
  set (a1 := snd (remove_item_from_list query a)) in *.
  unfold remove_item_from_list at 1. cbn [items set_items].
  rewrite Hitems, filter_filter_same, <- Hitems.
  rewrite Nat.ltb_irrefl. rewrite set_items_same. reflexivity.
Qed.

(** Adding an item to a list that has none of its name and then removing
    that name gives the list back, saved. *)
Theorem add_then_remove (item : Product) (a : GroceryAssistant) :
  (forall other, In other (items a) ->
     PyStr.lower (name other) <> PyStr.lower (name item)) ->
  remove_item_from_list (name item) (snd (add_item_to_list item a))
  = (true, save_grocery_list a).
Proof.
  intros Hnone. unfold remove_item_from_list, add_item_to_list.
  cbn [snd items set_items save_grocery_list set_disk].
  rewrite filter_app. cbn [filter]. rewrite String.eqb_refl. cbn [negb].
  rewrite app_nil_r.
  assert (Hkeep : filter (fun i => negb (String.eqb (PyStr.lower (name i))
                                                     (PyStr.lower (name item))))
                         (items a) = items a).
  { apply filter_keeps_length. clear - Hnone.
    induction (items a) as [|x l IH]; simpl; [lia|].
    destruct (String.eqb_spec (PyStr.lower (name x)) (PyStr.lower (name item))) as [E|E].
    - exfalso. apply (Hnone x); [left; reflexivity | assumption].
    - simpl. apply le_n_S. apply IH. intros o Ho. apply Hnone. right. assumption. }
  rewrite Hkeep, length_app. cbn [length].
  replace (Nat.ltb (length (items a)) (length (items a) + 1)) with true
    by (symmetry; apply Nat.ltb_lt; lia).
  destruct a as [l h c [g hf cf]]. reflexivity.
Qed.

(** Closing the purchases twice on one day is closing them once. *)
Theorem mark_items_as_purchased_twice (today : date) (a : GroceryAssistant) :
  mark_items_as_purchased today (snd (mark_items_as_purchased today a))
  = mark_items_as_purchased today a.
Proof. destruct a as [l h c [g hf cf]]. reflexivity. Qed.

Lemma dated_set (k : string) (v : json) (h : dict json) (d : date) :
  entry_date v = Ok d -> dated h = true -> dated (dict_set k v h) = true.
Proof.
  intros Hv. unfold dated. induction h as [|[k' v'] h IH]; simpl.
  - rewrite Hv. reflexivity.
  - intros H. apply andb_true_iff in H. destruct H as [H1 H2].
    destruct (String.eqb k' k); simpl.
    + rewrite Hv, H2. reflexivity.
    + rewrite H1. simpl. apply IH. assumption.
Qed.

Lemma mark_fold_dated (today : date) (l : list Product) (h : dict json) :
  valid_date today = true -> dated h = true ->
  dated (fold_left (fun h item => dict_set (PyStr.lower (name item)) (today_entry today) h)
                   l h) = true.
Proof.
  intros Hv. revert h. induction l as [|item l IH]; intros h Hd; simpl; [assumption|].
  apply IH. apply (dated_set _ _ _ today); [|assumption].
  unfold entry_date, today_entry, subscript, LAST. simpl dict_get. cbn [bind strptime].
  apply strptime_isoformat. assumption.
Qed.

(** Right after the purchases are closed, nothing that was on the list is
    suggested as missing. *)
Theorem no_suggestion_after_purchase (today : date) (a : GroceryAssistant) :
  valid_date today = true ->
  normal_history (purchase_history a) ->
  dated (purchase_history a) = true ->
  exists names : list string,
    suggest_missing_items today (snd (mark_items_as_purchased today a))
      = Ok (map missing_msg names) /\
    forall item k, In item (items a) -> In k names ->
                   PyStr.lower k <> PyStr.lower (name item).
Proof.
  intros Hv Hn Hd.
  pose proof (mark_items_as_purchased_normal today a Hn) as [Hnd Hlow].
  set (a' := snd (mark_items_as_purchased today a)) in *.
  assert (Hh : purchase_history a' =
               fold_left (fun h item => dict_set (PyStr.lower (name item)) (today_entry today) h)
                         (items a) (purchase_history a)) by reflexivity.
  assert (Hd' : dated (purchase_history a') = true)
    by (rewrite Hh; apply mark_fold_dated; assumption).
  destruct (suggest_missing_items_names today a' Hd') as [names [Hrun Hnames]].
  exists names. split; [exact Hrun|].
  intros item k Hitem Hk Heq. apply Hnames in Hk.
  destruct Hk as [pre [v [post [d [Hsplit [_ [_ [Hdate Hold]]]]]]]].
  assert (Hin : In (k, v) (purchase_history a')) by (rewrite Hsplit; apply in_elt).
  assert (Hkey : PyStr.lower k = k).
  { apply Hlow. unfold keys. apply (in_map fst) in Hin. exact Hin. }
  pose proof (dict_get_unique k v _ Hnd Hin) as Hget.
  rewrite Hh, mark_fold_get in Hget.
  replace (existsb _ (items a)) with true in Hget.
  - inversion Hget; subst v.
    unfold entry_date, today_entry, subscript, LAST in Hdate. simpl dict_get in Hdate.
    cbn [bind strptime] in Hdate. rewrite (strptime_isoformat today Hv) in Hdate.
    inversion Hdate; subst d. unfold days_between in Hold. lia.
  - symmetry. apply existsb_exists. exists item. split; [assumption|].
    apply String.eqb_eq. congruence.
Qed.

(** ** Healthier alternatives *)

Lemma healthier_flat (a : GroceryAssistant) :
  suggest_healthier_alternatives a =
  flat_map (fun item => suggest_healthier_alternatives (set_items [item] a)) (items a).
Proof.
  unfold suggest_healthier_alternatives at 1.
  apply (fold_left_emit _ (fun item => suggest_healthier_alternatives (set_items [item] a))).
  intros acc item. unfold suggest_healthier_alternatives. cbn [items set_items fold_left].
  destruct (dict_get _ healthier_alternatives); [reflexivity | symmetry; apply app_nil_r].
Qed.

(** Each item is judged alone and by its lower-cased name: it gets one
    suggestion when the name is in the table and none otherwise; and the
    alternative the table proposes is itself never found wanting. *)
Theorem suggest_healthier_alternatives_per_item
    (a : GroceryAssistant) (before after : list Product) (item : Product) :
  items a = before ++ item :: after ->
  exists emitted : list string,
    suggest_healthier_alternatives a =
      suggest_healthier_alternatives (set_items before a) ++ emitted ++
      suggest_healthier_alternatives (set_items after a) /\
    match dict_get (PyStr.lower (name item)) healthier_alternatives with
    | Some better =>
        emitted = [("Instead of " ++ name item ++ ", consider " ++ better
                    ++ " as a healthier alternative.")%string] /\
        forall q u c,
          suggest_healthier_alternatives (set_items [mkProduct better q u c None None] a) = []
    | None => emitted = []
    end.
Proof.
  intros Hitems.
  exists (suggest_healthier_alternatives (set_items [item] a)). split.
  - rewrite (healthier_flat a), (healthier_flat (set_items before a)),
      (healthier_flat (set_items after a)), Hitems.
    cbn [items set_items]. rewrite flat_map_app. reflexivity.
  - assert (Hem : suggest_healthier_alternatives (set_items [item] a) =
                  match dict_get (PyStr.lower (name item)) healthier_alternatives with
                  | Some better =>
                      [("Instead of " ++ name item ++ ", consider " ++ better
                        ++ " as a healthier alternative.")%string]
                  | None => []
                  end).
    { unfold suggest_healthier_alternatives. cbn [items set_items fold_left].
      destruct (dict_get _ healthier_alternatives); reflexivity. }
    rewrite Hem. clear Hem.
    destruct (dict_get (PyStr.lower (name item)) healthier_alternatives) as [better|] eqn:E;
      [|reflexivity].
    split; [reflexivity|]. intros q u c.
    apply dict_get_In in E. unfold healthier_alternatives in E. simpl in E.
    repeat (destruct E as [E|E]; [inversion E; subst; reflexivity|]).
    contradiction.
Qed.

(** ** What the chat stores *)

Lemma is_lower_lower (s : string) : is_lower (PyStr.lower s) = true.
Proof.
  induction s as [|c s IH]; simpl; [reflexivity|].
  rewrite lower_char_idempotent, Ascii.eqb_refl, IH. reflexivity.
Qed.

Lemma is_lower_eq (s : string) : is_lower s = true -> PyStr.lower s = s.
Proof.
  induction s as [|c s IH]; simpl; [reflexivity|].
  intros H. apply andb_true_iff in H. destruct H as [Hc Hs].
  apply Ascii.eqb_eq in Hc. rewrite Hc, (IH Hs). reflexivity.
Qed.

Lemma is_lower_substring (s : string) :
  forall n m, is_lower s = true -> is_lower (String.substring n m s) = true.
Proof.
  induction s as [|c s IH]; intros [|n] [|m] H; simpl; try reflexivity.
  - simpl in H. apply andb_true_iff in H. destruct H as [Hc Hs].
    rewrite Hc. simpl. apply IH. assumption.
  - simpl in H. apply andb_true_iff in H. destruct H as [Hc Hs]. apply IH. assumption.
  - simpl in H. apply andb_true_iff in H. destruct H as [Hc Hs]. apply IH. assumption.
Qed.

Lemma is_lower_lstrip (s : string) : is_lower s = true -> is_lower (PyStr.lstrip s) = true.
Proof.
  induction s as [|c s IH]; simpl; [reflexivity|].
  intros H. destruct (PyStr.isspace c); [|exact H].
  apply andb_true_iff in H. destruct H as [_ Hs]. auto.
Qed.

Lemma is_lower_rstrip (s : string) : is_lower s = true -> is_lower (PyStr.rstrip s) = true.
Proof.
  induction s as [|c s IH]; simpl; [reflexivity|].
  intros H. apply andb_true_iff in H. destruct H as [Hc Hs]. specialize (IH Hs).
  destruct (PyStr.rstrip s) as [|c' r].
  - destruct (PyStr.isspace c); simpl; [reflexivity | rewrite Hc; reflexivity].
  - cbn [is_lower]. rewrite Hc. exact IH.
Qed.

Lemma is_lower_strip (s : string) : is_lower s = true -> is_lower (PyStr.strip s) = true.
Proof. intros H. apply is_lower_rstrip, is_lower_lstrip, H. Qed.

Module ReLower.
Import Re.

Lemma groups_lower_set (g : groups) (n v : string) :
  groups_lower g -> is_lower v = true -> groups_lower (dict_set n v g).
Proof.
  intros Hg Hv m w. destruct (String.eqb_spec n m) as [->|Hne].
  - rewrite dict_get_set_same. intros H. inversion H; subst. assumption.
  - rewrite dict_get_set_other by assumption. apply Hg.
Qed.

Lemma plus_greedy_lower {R} (k : string -> option R) p s x :
  is_lower s = true -> plus_greedy k p s = Some x ->
  exists s', k s' = Some x /\ is_lower s' = true.
Proof.
  induction s as [|c s IH]; simpl; [discriminate|].
  intros H. apply andb_true_iff in H. destruct H as [_ Hs].
  destruct (p c); [|discriminate].
  destruct (plus_greedy k p s); intros E; [apply IH; assumption | eauto].
Qed.

Lemma plus_lazy_lower {R} (k : string -> option R) p s x :
  is_lower s = true -> plus_lazy k p s = Some x ->
  exists s', k s' = Some x /\ is_lower s' = true.
Proof.
  induction s as [|c s IH]; simpl; [discriminate|].
  intros H. apply andb_true_iff in H. destruct H as [_ Hs].
  destruct (p c); [|discriminate].
  destruct (k s) eqn:E; intros E'; [exists s; split; congruence | auto].
Qed.

(** On lower-case text a match only ever captures lower-case text. *)
Lemma rmatch_lower {R} (r : regex) :
  forall s g (k : string -> groups -> option R) x,
    is_lower s = true -> groups_lower g ->
    rmatch r s g k = Some x ->
    exists s' g', k s' g' = Some x /\ is_lower s' = true /\ groups_lower g'.
Proof.
  induction r as [|p|r1 IH1 r2 IH2|r1 IH1 r2 IH2|r1 IH1|p|p|n r1 IH1|];
    intros s g k x Hs Hg; simpl.
  - intros H. eauto.
  - destruct s as [|c s]; [discriminate|]. destruct (p c); [|discriminate].
    simpl in Hs. apply andb_true_iff in Hs. destruct Hs as [_ Hs]. intros H. eauto.
  - intros H. apply IH1 in H; [|assumption|assumption].
    destruct H as [s1 [g1 [H [Hs1 Hg1]]]]. apply IH2 in H; assumption.
  - destruct (rmatch r1 s g k) eqn:E; intros H.
    + apply (IH1 s g k); [assumption | assumption | congruence].
    + apply (IH2 s g k); assumption.
  - destruct (rmatch r1 s g k) eqn:E; intros H.
    + apply (IH1 s g k); [assumption | assumption | congruence].
    + eauto.
  - intros H. apply plus_greedy_lower in H; [|assumption].
    destruct H as [s' [H Hs']]. eauto.
  - intros H. apply plus_lazy_lower in H; [|assumption].
    destruct H as [s' [H Hs']]. eauto.
  - intros H. apply IH1 in H; [|assumption|assumption].
    destruct H as [s1 [g1 [H [Hs1 Hg1]]]].
    exists s1, (dict_set n (consumed s s1) g1). split; [assumption|]. split; [assumption|].
    apply groups_lower_set; [assumption|]. apply is_lower_substring. assumption.
  - destruct s as [|c [|c' s]]; try discriminate.
    + intros H. eauto.
    + destruct (Ascii.eqb c "010"); [|discriminate]. intros H. eauto.
Qed.

Lemma search_lower (r : regex) (s : string) (g : groups) :
  is_lower s = true -> search r s = Some g -> groups_lower g.
Proof.
  induction s as [|c s IH]; simpl; unfold rmatch_at; intros Hs.
  - destruct (rmatch r "" [] _) as [[g0 rest]|] eqn:E; [|discriminate].
    intros H. inversion H; subst g0.
    apply rmatch_lower in E; [|reflexivity|intros n v; discriminate].
    destruct E as [s' [g' [E [_ Hg]]]]. inversion E; subst. assumption.
  - destruct (rmatch r (String c s) [] _) as [[g0 rest]|] eqn:E.
    + intros H. inversion H; subst g0.
      apply rmatch_lower in E; [|assumption|intros n v; discriminate].
      destruct E as [s' [g' [E [_ Hg]]]]. inversion E; subst. assumption.
    + apply IH. simpl in Hs. apply andb_true_iff in Hs. tauto.
Qed.

End ReLower.

(** Whatever the message, an item the chat adds is in lower case (name,
    unit and category), has a unit, and has no quantity and no dates: the
    quantity of the phrase is matched and then dropped. *)
Theorem chat_add_stores_lower_case
    (today : date) (message : string) (a a' : GroceryAssistant) (r : Reply) :
  PyStr.contains "add" (PyStr.lower message) = true ->
  get_reply today message a = Ok (r, a') ->
  (refresh r = false /\ a' = a) \/
  (refresh r = true /\
   exists p u,
     items a' = items a ++ [p] /\
     PyStr.lower (name p) = name p /\
     unit p = Some u /\ PyStr.lower u = u /\ u <> "" /\
     is_lower_opt (category p) = true /\
     quantity p = None /\ purchase_date p = None /\ expiry_date p = None).
Proof.
  intros Hadd. rewrite get_reply_dispatch.
  assert (H : first_match priority (PyStr.lower message) = HAdd).
  { unfold priority, first_match, existsb. rewrite Hadd. reflexivity. }
  rewrite H. cbn [run_handler]. unfold _handle_add.
  destruct (Re.search add_pattern (PyStr.lower message)) as [m|] eqn:E.
  - pose proof (ReLower.search_lower _ _ _ (is_lower_lower message) E) as Hlow.
    destruct (ReFacts.search_sets "name" add_pattern _ m eq_refl E) as [n Hn].
    unfold group_strip. rewrite Hn. cbn.
    intros R. inversion R; subst. right. split; [reflexivity|].
    eexists _, _. split; [reflexivity|]. cbn.
    split; [apply is_lower_eq, is_lower_strip, (Hlow "name"), Hn|].
    split; [reflexivity|].
    assert (Hu : is_lower (or_pcs (Re.group "unit" m)) = true /\
                 or_pcs (Re.group "unit" m) <> "").
    { unfold or_pcs, Re.group. destruct (dict_get "unit" m) as [[|c u]|] eqn:U;
        try (split; [reflexivity | discriminate]).
      split; [apply (Hlow "unit"); assumption | discriminate]. }
    split; [apply is_lower_eq; tauto|]. split; [tauto|].
    split; [|repeat split].
    unfold Re.group. destruct (dict_get "category" m) eqn:C; [|reflexivity].
    apply (Hlow "category"). assumption.
  - cbn. intros R. inversion R; subst. left. auto.
Qed.

(** ** The endpoints that reload *)

Lemma load_grocery_list_persisted (a : GroceryAssistant) :
  persisted a -> load_grocery_list a = Ok a.
Proof.
  intros [Hlist _ _ _ Hvalid]. unfold load_grocery_list. rewrite Hlist.
  cbn [json_load json_iter bind]. rewrite (mapM_validate_dict _ Hvalid).
  cbn [except_missing_or_malformed bind]. rewrite set_items_same. reflexivity.
Qed.

(** The three reloading endpoints answer from the files: two assistants on
    the same files get the same answer, whatever they hold in memory; and
    when the files mirror the assistant the answer is that of the assistant
    itself, which the reload leaves as it was. *)
Theorem endpoints_answer_from_files (today : date) (a : GroceryAssistant) :
  (forall b, disk b = disk a ->
     (x <- Api.get_missing_item_suggestions today b ;; Ok (fst x))
       = (x <- Api.get_missing_item_suggestions today a ;; Ok (fst x)) /\
     (x <- Api.get_healthier_alternative_suggestions b ;; Ok (fst x))
       = (x <- Api.get_healthier_alternative_suggestions a ;; Ok (fst x)) /\
     (x <- Api.get_expiry_reminders today b ;; Ok (fst x))
       = (x <- Api.get_expiry_reminders today a ;; Ok (fst x))) /\
  (persisted a ->
     Api.get_missing_item_suggestions today a
       = (s <- suggest_missing_items today a ;; Ok (s, a)) /\
     Api.get_healthier_alternative_suggestions a
       = Ok (suggest_healthier_alternatives a, a) /\
     Api.get_expiry_reminders today a = Ok (get_expiry_reminders today a, a)).
Proof.
  split.
  - intros b Hdisk.
    unfold Api.get_missing_item_suggestions, Api.get_healthier_alternative_suggestions,
      Api.get_expiry_reminders, load_grocery_list.
    cbn [disk set_disk set_purchase_history]. rewrite Hdisk.
    split; [|split].
    + destruct (load_purchase_history (disk a)) as [[h fs]|]; [|reflexivity].
      cbn [bind fst snd]. destruct (except_missing_or_malformed _ _) as [l|]; [|reflexivity].
      cbn [bind]. unfold suggest_missing_items. cbn [items purchase_history set_items].
      destruct (foldM _ _ _); reflexivity.
    + destruct (except_missing_or_malformed _ _) as [l|]; reflexivity.
    + destruct (except_missing_or_malformed _ _) as [l|]; reflexivity.
  - intros Hp. pose proof (load_grocery_list_persisted a Hp) as Hl.
    unfold Api.get_missing_item_suggestions, Api.get_healthier_alternative_suggestions,
      Api.get_expiry_reminders.
    destruct Hp as [_ Hhist _ Hnormal _].
    rewrite (load_normal_history (disk a) (purchase_history a) Hnormal Hhist).
    cbn [bind fst snd].
    replace (set_disk (disk a) (set_purchase_history (purchase_history a) a)) with a
      by (destruct a; reflexivity).
    rewrite Hl. cbn [bind]. repeat split.
Qed.

(** ** Browsing the categories *)

Lemma init_categories (fs : files) (a : GroceryAssistant) :
  init fs = Ok a -> load_categories fs = Ok (categories a).
Proof.
  unfold init.
  destruct (load_purchase_history fs) as [[h fs1]|] eqn:E; [|discriminate].
  cbn [bind].
  assert (Hc : categories_file fs1 = categories_file fs).
  { unfold load_purchase_history in E.
    destruct (json_load (purchase_history_file fs)) as [j|e]; cbn [bind] in E.
    - destruct (json_items j) as [entries|e]; cbn [bind] in E; [|destruct e; inversion E; reflexivity].
      destruct (foldM normalize_step entries []) as [n|e]; cbn [bind] in E.
      + inversion E. reflexivity.
      + destruct e; inversion E; reflexivity.
    - destruct e; inversion E; reflexivity. }
  unfold load_categories. rewrite Hc.
  destruct (except_missing (json_load (categories_file fs)) (JObj [])) as [c|]; [|discriminate].
  cbn [bind]. unfold load_grocery_list.
  destruct (except_missing_or_malformed _ _) as [l|]; [|discriminate]. cbn [bind].
  intros H. inversion H. reflexivity.
Qed.

(** In an assistant built from the files, a category of the catalog file
    gives its items and any other category the empty list; without a
    catalog file every category gives the empty list; and a catalog file
    that holds JSON other than an object makes every request raise. *)
Theorem get_category_items_after_init (fs : files) (a : GroceryAssistant) (category : string) :
  init fs = Ok a ->
  match categories_file fs with
  | Missing => get_category_items category a = Ok (JArr [])
  | Corrupt => False
  | Doc (JObj catalog) =>
      get_categories a = JObj catalog /\
      get_category_items category a =
        Ok (match dict_get category catalog with
            | Some listed => listed
            | None => JArr []
            end)
  | Doc _ => get_category_items category a = Raise AttributeError
  end.
Proof.
  intros Hinit. apply init_categories in Hinit. unfold load_categories in Hinit.
  unfold get_category_items, get_categories.
  destruct (categories_file fs) as [| |j]; cbn in Hinit.
  - inversion Hinit as [Hc]. reflexivity.
  - discriminate.
  - injection Hinit as Hc. subst j. destruct (categories a) as [| | | | |d]; try reflexivity.
    split; [reflexivity|]. destruct (dict_get category d); reflexivity.
Qed.

(** ** The list, as the chat shows it *)

Lemma fold_left_append {A} (step : string -> A -> string) (line : A -> string) :
  (forall text x, step text x = (text ++ line x)%string) ->
  forall l start,
    fold_left step l start = (start ++ String.concat "" (map line l))%string.
Proof.
  intros Hstep. induction l as [|x l IH]; intros start; cbn [fold_left map].
  - simpl. symmetry. apply append_nil_r.
  - rewrite IH, Hstep. destruct l as [|y l].
    + simpl. rewrite append_nil_r. reflexivity.
    + cbn [map String.concat]. rewrite append_assoc. reflexivity.
Qed.

Lemma concat_empty_cons (x : string) (l : list string) :
  String.concat "" (x :: l) = (x ++ String.concat "" l)%string.
Proof. destruct l; simpl; [rewrite append_nil_r|]; reflexivity. Qed.

Lemma concat_empty_app (l1 l2 : list string) :
  String.concat "" (l1 ++ l2) = (String.concat "" l1 ++ String.concat "" l2)%string.
Proof.
  induction l1 as [|x l1 IH]; [reflexivity|].
  rewrite <- app_comm_cons, !concat_empty_cons, IH, append_assoc. reflexivity.
Qed.

Lemma get_list_lines (a : GroceryAssistant) :
  items a <> [] ->
  _get_list a =
  ("Here's your grocery list:" ++ nl ++ String.concat "" (map list_line (items a)))%string.
Proof.
  unfold _get_list. destruct (items a) as [|x l] eqn:E; [contradiction|]. intros _.
  transitivity (("Here's your grocery list:" ++ nl)
                ++ String.concat "" (map list_line (x :: l)))%string;
    [|apply append_assoc].
  apply fold_left_append. intros text item. unfold list_line.
  destruct (PyStr.truthy (category item)); rewrite ?append_assoc; reflexivity.
Qed.

(** The list the chat shows says so when the list is empty, and otherwise
    has, under its heading, one line per item in list order; so every item
    on the list is shown with its name and unit. *)
Theorem get_list_shows_every_item (a : GroceryAssistant) :
  (items a = [] -> _get_list a = "Your grocery list is empty.") /\
  (items a <> [] ->
   _get_list a =
   ("Here's your grocery list:" ++ nl ++ String.concat "" (map list_line (items a)))%string) /\
  (forall item, In item (items a) ->
     PyStr.contains ("- " ++ name item ++ " (" ++ PyStr.of_opt (unit item)) (_get_list a)
     = true).
Proof.
  split; [|split].
  - unfold _get_list. intros ->. reflexivity.
  - apply get_list_lines.
  - intros item Hin.
    assert (Hne : items a <> []) by (intros E; rewrite E in Hin; contradiction).
    rewrite (get_list_lines a Hne).
    destruct (in_split _ _ Hin) as [l1 [l2 Hsplit]]. rewrite Hsplit.
    rewrite map_app. cbn [map]. rewrite concat_empty_app, concat_empty_cons.
    apply contains_spec.
    exists ("Here's your grocery list:" ++ nl ++ String.concat "" (map list_line l1))%string.
    eexists. unfold list_line. rewrite !append_assoc. reflexivity.
Qed.

(** ** Only a purchase touches the history *)

Lemma first_match_never_clear (msg : string) : first_match priority msg <> HClear.
Proof.
  unfold priority, first_match, existsb. rewrite !orb_false_r.
  destruct (PyStr.contains "add" msg); [discriminate|].
  destruct (PyStr.contains "remove" msg); [discriminate|].
  destruct (PyStr.contains "expiring" msg); [discriminate|].
  destruct (PyStr.contains "suggestions" msg); [discriminate|].
  destruct (PyStr.contains "list" msg) eqn:L; [discriminate|].
  destruct (PyStr.contains "clear list" msg) eqn:C.
  - rewrite (contains_tail "clear " "list" msg C) in L. discriminate.
  - rewrite orb_false_l.
    destruct (PyStr.contains "show list" msg); [discriminate|].
    destruct (PyStr.contains "purchase" msg); [discriminate|].
    destruct (_ || _); discriminate.
Qed.

(** A chat message never changes the catalog nor its file, keeps the
    history at one entry per lower-cased name, and changes the history and
    its file only when it is dispatched to the purchase handler. *)
Theorem get_reply_history_only_on_purchase
    (today : date) (message : string) (a a' : GroceryAssistant) (r : Reply) :
  get_reply today message a = Ok (r, a') ->
  categories a' = categories a /\
  categories_file (disk a') = categories_file (disk a) /\
  (normal_history (purchase_history a) -> normal_history (purchase_history a')) /\
  (first_match priority (PyStr.lower message) <> HPurchase ->
   purchase_history a' = purchase_history a /\
   purchase_history_file (disk a') = purchase_history_file (disk a)).
Proof.
  rewrite get_reply_dispatch.
  destruct (first_match priority (PyStr.lower message)) eqn:F; cbn [run_handler].
  - destruct (handle_add_cases (PyStr.lower message) a) as [H|[n [u [c [text H]]]]];
      rewrite H; cbn; intros E; inversion E; subst; cbn; auto.
  - destruct (handle_remove_cases (PyStr.lower message) a) as [text [H|[q [Hq H]]]];
      rewrite H; cbn [as_reply bind]; intros E; inversion E; subst; auto.
    unfold remove_item_from_list. cbn [items set_items].
    destruct (Nat.ltb _ _); cbn; auto.
  - destruct (handle_expiring_state today (PyStr.lower message) a) as [Hs Hf].
    destruct (_handle_expiring today (PyStr.lower message) a) as [[text flag] a1].
    cbn in *. subst. intros E; inversion E; subst. auto.
  - destruct (_handle_suggestions today (PyStr.lower message) a) as [[[text flag] a1]|] eqn:S;
      cbn [as_reply bind]; [|discriminate].
    apply handle_suggestions_state in S. cbn in S. destruct S as [-> ->].
    intros E; inversion E; subst. auto.
  - cbn. intros E; inversion E; subst. auto.
  - exfalso. exact (first_match_never_clear _ F).
  - cbn [_handle_purchase as_reply bind].
    destruct (mark_items_as_purchased today a) as [msg a1] eqn:M.
    intros E; inversion E; subst a'.
    replace a1 with (snd (mark_items_as_purchased today a)) by (rewrite M; reflexivity).
    split; [reflexivity|]. split; [reflexivity|].
    split; [apply mark_items_as_purchased_normal | intros H; contradiction].
  - cbn. intros E; inversion E; subst. auto.
  - cbn. intros E; inversion E; subst. auto.
Qed.

(** ** The whitespace a phrase needs *)

Lemma In_all_ascii (c : ascii) : In c all_ascii.
Proof.
  unfold all_ascii. apply in_map_iff. exists (nat_of_ascii c).
  split; [apply ascii_nat_embedding|]. apply in_seq.
  pose proof (nat_ascii_bounded c). lia.
Qed.

Lemma only_space_spec (p : ascii -> bool) (c : ascii) :
  only_space p = true -> p c = true -> PyStr.isspace c = true.
Proof.
  unfold only_space. rewrite forallb_forall. intros H Hp.
  specialize (H c (In_all_ascii c)). rewrite Hp in H. exact H.
Qed.

Module ReSpaces.
Import Re.

Lemma plus_greedy_spaces {R} (k : string -> option R) p s x :
  plus_greedy k p s = Some x ->
  exists s', k s' = Some x /\
             (spaces s' + (if only_space p then 1 else 0) <= spaces s)%nat.
Proof.
  induction s as [|c s IH]; simpl; [discriminate|].
  destruct (p c) eqn:Pc; [|discriminate].
  assert (Hc : ((if only_space p then 1 else 0) <= (if PyStr.isspace c then 1 else 0))%nat).
  { destruct (only_space p) eqn:O; [|lia]. rewrite (only_space_spec p c O Pc). lia. }
  destruct (plus_greedy k p s) eqn:E; intros H.
  - destruct (IH H) as [s' [Hk Hs]]. exists s'. split; [assumption | lia].
  - exists s. split; [assumption | lia].
Qed.

Lemma plus_lazy_spaces {R} (k : string -> option R) p s x :
  plus_lazy k p s = Some x ->
  exists s', k s' = Some x /\
             (spaces s' + (if only_space p then 1 else 0) <= spaces s)%nat.
Proof.
  induction s as [|c s IH]; simpl; [discriminate|].
  destruct (p c) eqn:Pc; [|discriminate].
  assert (Hc : ((if only_space p then 1 else 0) <= (if PyStr.isspace c then 1 else 0))%nat).
  { destruct (only_space p) eqn:O; [|lia]. rewrite (only_space_spec p c O Pc). lia. }
  destruct (k s) eqn:E; intros H.
  - exists s. split; [congruence | lia].
  - destruct (IH H) as [s' [Hk Hs]]. exists s'. split; [assumption | lia].
Qed.

(** A match consumes at least the whitespace its pattern is sure to. *)
Lemma rmatch_spaces {R} (r : regex) :
  forall s g (k : string -> groups -> option R) x,
    rmatch r s g k = Some x ->
    exists s' g', k s' g' = Some x /\ (spaces s' + min_spaces r <= spaces s)%nat.
Proof.
  induction r as [|p|r1 IH1 r2 IH2|r1 IH1 r2 IH2|r1 IH1|p|p|n r1 IH1|];
    intros s g k x; cbn [rmatch min_spaces].
  - intros H. exists s, g. split; [assumption | lia].
  - destruct s as [|c s]; [discriminate|]. destruct (p c) eqn:Pc; [|discriminate].
    intros H. exists s, g. split; [assumption|]. cbn [spaces].
    destruct (only_space p) eqn:O; [|lia]. rewrite (only_space_spec p c O Pc). lia.
  - intros H. apply IH1 in H. destruct H as [s1 [g1 [H L1]]].
    apply IH2 in H. destruct H as [s2 [g2 [H L2]]].
    exists s2, g2. split; [assumption | lia].
  - destruct (rmatch r1 s g k) eqn:E; intros H.
    + destruct (IH1 s g k x) as [s' [g' [Hk L]]]; [congruence|].
      exists s', g'. split; [assumption | lia].
    + destruct (IH2 s g k x H) as [s' [g' [Hk L]]].
      exists s', g'. split; [assumption | lia].
  - destruct (rmatch r1 s g k) eqn:E; intros H.
    + destruct (IH1 s g k x) as [s' [g' [Hk L]]]; [congruence|].
      exists s', g'. split; [assumption | lia].
    + exists s, g. split; [assumption | lia].
  - intros H. apply plus_greedy_spaces in H. destruct H as [s' [H L]]. eauto.
  - intros H. apply plus_lazy_spaces in H. destruct H as [s' [H L]]. eauto.
  - intros H. apply IH1 in H. destruct H as [s1 [g1 [H L]]]. eauto.
  - destruct s as [|c [|c' s]]; try discriminate.
    + intros H. exists "", g. split; [assumption | lia].
    + destruct (Ascii.eqb c "010"); [|discriminate].
      intros H. eexists _, g. split; [eassumption | lia].
Qed.

Lemma search_spaces (r : regex) (s : string) (g : groups) :
  search r s = Some g -> (min_spaces r <= spaces s)%nat.
Proof.
  induction s as [|c s IH]; cbn [search]; unfold rmatch_at.
  - destruct (rmatch r "" [] _) as [[g0 rest]|] eqn:E; [|discriminate].
    intros _. apply rmatch_spaces in E. destruct E as [s' [g' [_ L]]]. lia.
  - destruct (rmatch r (String c s) [] _) as [[g0 rest]|] eqn:E.
    + intros _. apply rmatch_spaces in E. destruct E as [s' [g' [_ L]]]. lia.
    + intros H. specialize (IH H). cbn [spaces]. lia.
Qed.

End ReSpaces.

Lemma isspace_lower_char (c : ascii) :
  PyStr.isspace (PyStr.lower_char c) = PyStr.isspace c.
Proof. destruct c as [[] [] [] [] [] [] [] []]; reflexivity. Qed.

Lemma spaces_lower (s : string) : spaces (PyStr.lower s) = spaces s.
Proof.
  induction s as [|c s IH]; simpl; [reflexivity|].
  rewrite isspace_lower_char, IH. reflexivity.
Qed.

(** An add phrase needs two whitespace characters and a remove phrase one:
    a message with fewer gets the usage hint and changes nothing, so
    "add milk" adds nothing. *)
Theorem chat_phrase_needs_whitespace
    (today : date) (message : string) (a : GroceryAssistant) :
  (PyStr.contains "add" (PyStr.lower message) = true ->
   (spaces message < 2)%nat ->
   get_reply today message a = Ok (mkReply add_usage false, a)) /\
  (PyStr.contains "add" (PyStr.lower message) = false ->
   PyStr.contains "remove" (PyStr.lower message) = true ->
   (spaces message < 1)%nat ->
   get_reply today message a = Ok (mkReply remove_usage false, a)).
Proof.
  split.
  - intros Hadd Hs. rewrite get_reply_dispatch.
    assert (H : first_match priority (PyStr.lower message) = HAdd).
    { unfold priority, first_match, existsb. rewrite Hadd. reflexivity. }
    rewrite H. cbn [run_handler]. unfold _handle_add.
    destruct (Re.search add_pattern (PyStr.lower message)) as [m|] eqn:E; [|reflexivity].
    apply ReSpaces.search_spaces in E. rewrite spaces_lower in E.
    change (min_spaces add_pattern) with 2%nat in E. lia.
  - intros Hadd Hrem Hs. rewrite get_reply_dispatch.
    assert (H : first_match priority (PyStr.lower message) = HRemove).
    { unfold priority, first_match, existsb. rewrite Hadd, Hrem. reflexivity. }
    rewrite H. cbn [run_handler]. unfold _handle_remove.
    destruct (Re.search remove_pattern (PyStr.lower message)) as [m|] eqn:E; [|reflexivity].
    apply ReSpaces.search_spaces in E. rewrite spaces_lower in E.
    change (min_spaces remove_pattern) with 1%nat in E. lia.
Qed.

(** ** Concrete cases of the further properties *)

Lemma normal_check_spec (h : dict json) : normal_check h = true -> normal_history h.
Proof.
  unfold normal_check. intros H. apply andb_true_iff in H. destruct H as [Hd Hl].
  split; [apply distinct_NoDup; assumption|].
  intros k Hk. rewrite forallb_forall in Hl. apply String.eqb_eq. auto.
Qed.

Lemma kept_assistant_persisted : persisted kept_assistant.
Proof.
  constructor; try reflexivity.
  - left. reflexivity.
  - apply normal_check_spec. reflexivity.
Qed.

Lemma legacy_to_dict_from_dict_witness :
  exists written,
    Legacy.to_dict legacy_milk = Ok written /\ Legacy.from_dict written = Ok legacy_milk.
Proof.
  apply (proj2 (legacy_to_dict_from_dict legacy_milk) (mkDate 2024 2 29)); reflexivity.
Defined.

Lemma save_then_load_grocery_list_witness :
  load_grocery_list (save_grocery_list (set_items [dated_milk] fresh_assistant))
  = Ok (save_grocery_list (set_items [dated_milk] fresh_assistant)).
Proof. apply save_then_load_grocery_list. reflexivity. Defined.

Lemma load_purchase_history_idempotent_witness :
  let healed := [("milk", JObj [("last_purchase_date", JStr "2025-10-27")]);
                 ("eggs", JObj [("last_purchase_date", JStr "2025-10-21")])] in
  load_purchase_history (mkFiles Missing (Doc (JObj healed)) Missing)
  = Ok (healed, mkFiles Missing (Doc (JObj healed)) Missing).
Proof.
  apply (load_purchase_history_idempotent (mkFiles Missing (Doc (JObj two_milks)) Missing)).
  vm_compute. reflexivity.
Defined.

Lemma reload_after_purchase_witness :
  load_purchase_history (disk (snd (mark_items_as_purchased a_monday bread_on_list)))
  = Ok (purchase_history (snd (mark_items_as_purchased a_monday bread_on_list)),
        disk (snd (mark_items_as_purchased a_monday bread_on_list))).
Proof. apply reload_after_purchase. apply normal_check_spec. reflexivity. Defined.

Lemma init_restores_persisted_witness : init (disk kept_assistant) = Ok kept_assistant.
Proof. apply init_restores_persisted. exact kept_assistant_persisted. Defined.

Lemma restart_after_purchase_witness :
  init (disk (snd (mark_items_as_purchased a_monday fresh_assistant)))
  = Ok (snd (mark_items_as_purchased a_monday fresh_assistant)).
Proof. apply (restart_after_purchase no_files). reflexivity. Defined.

Lemma get_reply_refresh_witness :
  (refresh (mkReply remove_usage false) = false -> kept_assistant = kept_assistant) /\
  (refresh (mkReply remove_usage false) = true ->
   grocery_list_file (disk kept_assistant)
   = Doc (JArr (map Product_dict (items kept_assistant)))).
Proof.
  apply (get_reply_refresh a_monday "Remove" kept_assistant). reflexivity.
Defined.

Lemma get_reply_keeps_persisted_witness :
  persisted (snd (mark_items_as_purchased a_monday kept_assistant)).
Proof.
  apply (get_reply_keeps_persisted a_monday "purchase" kept_assistant _
           (mkReply "I've marked all items as purchased and updated your purchase history."
                    true)).
  - exact kept_assistant_persisted.
  - reflexivity.
Defined.

Lemma get_reply_raises_only_from_suggestions_witness :
  exists r a', get_reply a_monday "Any suggestions?" bread_on_list = Ok (r, a').
Proof.
  apply (proj2 (get_reply_raises_only_from_suggestions a_monday "Any suggestions?"
                  bread_on_list)).
  reflexivity.
Defined.

Lemma add_then_remove_witness :
  remove_item_from_list (name dated_milk) (snd (add_item_to_list dated_milk fresh_assistant))
  = (true, save_grocery_list fresh_assistant).
Proof. apply add_then_remove. simpl. intros other []. Defined.

Lemma no_suggestion_after_purchase_witness :
  exists names : list string,
    suggest_missing_items a_monday (snd (mark_items_as_purchased a_monday bread_on_list))
      = Ok (map missing_msg names) /\
    forall item k, In item (items bread_on_list) -> In k names ->
                   PyStr.lower k <> PyStr.lower (name item).
Proof.
  apply no_suggestion_after_purchase.
  - reflexivity.
  - apply normal_check_spec. reflexivity.
  - reflexivity.
Defined.

Lemma suggest_healthier_alternatives_per_item_witness :
  exists emitted : list string,
    suggest_healthier_alternatives soda_and_milk =
      suggest_healthier_alternatives (set_items [] soda_and_milk) ++ emitted ++
      suggest_healthier_alternatives (set_items [dated_milk] soda_and_milk) /\
    emitted = ["Instead of Soda, consider water as a healthier alternative."].
Proof.
  destruct (suggest_healthier_alternatives_per_item soda_and_milk [] [dated_milk]
              (Product_defaults "Soda") eq_refl) as [emitted [Hsplit Hem]].
  exists emitted. split; [exact Hsplit | exact (proj1 Hem)].
Defined.

Lemma chat_add_stores_lower_case_witness :
  (refresh (mkReply "I've added rice to your list." true) = false /\
   snd (add_item_to_list (Product_kw "rice" (Some "kg") (Some "pantry")) fresh_assistant)
   = fresh_assistant) \/
  (refresh (mkReply "I've added rice to your list." true) = true /\
   exists p u,
     items (snd (add_item_to_list (Product_kw "rice" (Some "kg") (Some "pantry"))
                                  fresh_assistant))
     = items fresh_assistant ++ [p] /\
     PyStr.lower (name p) = name p /\
     unit p = Some u /\ PyStr.lower u = u /\ u <> "" /\
     is_lower_opt (category p) = true /\
     quantity p = None /\ purchase_date p = None /\ expiry_date p = None).
Proof.
  apply (chat_add_stores_lower_case a_monday "Add 2 KG of Rice to Pantry" fresh_assistant).
  - reflexivity.
  - vm_compute. reflexivity.
Defined.

Lemma endpoints_answer_from_files_witness :
  Api.get_missing_item_suggestions a_monday kept_assistant
    = (s <- suggest_missing_items a_monday kept_assistant ;; Ok (s, kept_assistant)) /\
  Api.get_healthier_alternative_suggestions kept_assistant
    = Ok (suggest_healthier_alternatives kept_assistant, kept_assistant) /\
  Api.get_expiry_reminders a_monday kept_assistant
    = Ok (get_expiry_reminders a_monday kept_assistant, kept_assistant).
Proof.
  apply (proj2 (endpoints_answer_from_files a_monday kept_assistant)).
  exact kept_assistant_persisted.
Defined.

Lemma get_category_items_after_init_witness :
  get_categories kept_assistant = kept_catalog /\
  get_category_items "Dairy & Eggs" kept_assistant = Ok (JArr [JStr "Milk"; JStr "Butter"]).
Proof.
  apply (get_category_items_after_init (disk kept_assistant) kept_assistant "Dairy & Eggs").
  vm_compute. reflexivity.
Defined.

Lemma get_list_shows_every_item_witness :
  PyStr.contains "- Milk (l" (_get_list kept_assistant) = true.
Proof.
  apply (proj2 (proj2 (get_list_shows_every_item kept_assistant)) dated_milk).
  simpl. tauto.
Defined.

Lemma get_reply_history_only_on_purchase_witness :
  categories (snd (add_item_to_list (Product_kw "rice" (Some "kg") (Some "pantry"))
                                    kept_assistant)) = categories kept_assistant /\
  categories_file (disk (snd (add_item_to_list (Product_kw "rice" (Some "kg") (Some "pantry"))
                                               kept_assistant)))
  = categories_file (disk kept_assistant).
Proof.
  destruct (get_reply_history_only_on_purchase a_monday "add 2 kg of rice to pantry"
              kept_assistant
              (snd (add_item_to_list (Product_kw "rice" (Some "kg") (Some "pantry"))
                                     kept_assistant))
              (mkReply "I've added rice to your list." true))
    as [Hc [Hf _]].
  - vm_compute. reflexivity.
  - split; assumption.
Defined.

Lemma chat_phrase_needs_whitespace_witness :
  get_reply a_monday "add milk" fresh_assistant = Ok (mkReply add_usage false, fresh_assistant).
Proof.
  apply (proj1 (chat_phrase_needs_whitespace a_monday "add milk" fresh_assistant)).
  - reflexivity.
  - simpl. lia.
Defined.
